(** * Enhanced Digital Twin application: a shallow embedding

    The development follows [WEB_APPLICATION/enhanced_app.py].  The class
    [EnhancedDigitalTwinApp] becomes a record of its attributes together
    with the environment it reads (numpy's generator, the operating
    system's entropy, the wall clock); every method becomes a computation
    in a state-and-exception monad over that record.

    Numbers.  Python floats are idealised as exact rationals ([Q]);
    [round(x, n)] is rounding half to even on the exact value.  A
    [datetime] is the number of microseconds since [datetime.min], a
    [timedelta] a number of microseconds.  The code stores timestamps as
    [isoformat()] strings and only ever compares them; since [isoformat]
    is injective and monotone on naive datetimes (fixed-width fields, the
    optional fraction only extends a prefix) they are kept as datetimes. *)

From Stdlib Require Import ZArith QArith Qround Qabs Lqa Lia String Ascii Sorted.
From Stdlib Require Import DecimalString.
From stdpp Require Import base gmap strings list.

Local Open Scope string_scope.
Local Open Scope Z_scope.

(** ** Python built-ins on numbers *)

Definition Qltb (x y : Q) : bool := negb (Qle_bool y x).

(** [max(a, b)] keeps [a] unless [b > a]; [min(a, b)] keeps [a] unless
    [b < a]. *)
Definition py_max (a b : Q) : Q := if Qltb a b then b else a.
Definition py_min (a b : Q) : Q := if Qltb b a then b else a.

Definition round_half_even (x : Q) : Z :=
  let f := Qfloor x in
  match Qcompare (x - inject_Z f) (1 # 2) with
  | Lt => f
  | Gt => f + 1
  | Eq => if Z.even f then f else f + 1
  end.

Definition pow10 (ndigits : nat) : positive := Pos.pow 10 (Pos.of_nat ndigits).

(** [round(x, ndigits)] for [ndigits >= 1]. *)
Definition py_round (x : Q) (ndigits : nat) : Q :=
  Qmake (round_half_even (x * inject_Z (Zpos (pow10 ndigits)))) (pow10 ndigits).

Definition py_sum (l : list Q) : Q := fold_right Qplus 0%Q l.

(** [np.mean] of a non-empty list. *)
Definition np_mean (l : list Q) : Q := (py_sum l / inject_Z (Z.of_nat (length l)))%Q.

(** [l[:stop]] for a Python integer [stop]. *)
Definition py_slice_to {A} (l : list A) (stop : Z) : list A :=
  if stop <? 0 then take (Z.to_nat (Z.of_nat (length l) + stop)) l
  else take (Z.to_nat stop) l.

(** ** Python built-ins on strings *)

Definition str_of_nat (n : nat) : string := NilZero.string_of_uint (Nat.to_uint n).

Fixpoint zeros (k : nat) : string :=
  match k with O => EmptyString | S k' => String "0" (zeros k') end.

(** The format specification [:03d]. *)
Definition fmt_03d (n : nat) : string :=
  let s := str_of_nat n in zeros (3 - String.length s) +:+ s.

Definition is_lower (c : ascii) : bool :=
  let n := nat_of_ascii c in (97 <=? n)%nat && (n <=? 122)%nat.
Definition is_upper (c : ascii) : bool :=
  let n := nat_of_ascii c in (65 <=? n)%nat && (n <=? 90)%nat.
Definition to_upper (c : ascii) : ascii :=
  if is_lower c then ascii_of_nat (nat_of_ascii c - 32) else c.
Definition to_lower (c : ascii) : ascii :=
  if is_upper c then ascii_of_nat (nat_of_ascii c + 32) else c.

(** [s.replace(old, new)] for one-character [old] and [new]. *)
Fixpoint str_replace (old new : ascii) (s : string) : string :=
  match s with
  | EmptyString => EmptyString
  | String c s' =>
      String (if Ascii.eqb c old then new else c) (str_replace old new s')
  end.

(** [s.title()]: a cased character is upper-cased after an uncased one
    and lower-cased after a cased one. *)
Fixpoint str_title_from (prev_cased : bool) (s : string) : string :=
  match s with
  | EmptyString => EmptyString
  | String c s' =>
      let cased := is_lower c || is_upper c in
      String (if prev_cased then to_lower c else to_upper c)
             (str_title_from cased s')
  end.
Definition str_title (s : string) : string := str_title_from false s.

(** ** The [datetime] module *)

Module datetime.

  (** Microseconds since [datetime.min] (0001-01-01T00:00:00). *)
Definition t := Z.
Definition timedelta := Z.

Definition min : t := 0.
  (** 9999-12-31T23:59:59.999999: day 3652059 of the proleptic calendar
      ends here. *)
Definition max : t := 3652059 * 86400000000 - 1.

Definition microseconds (n : Z) : timedelta := n.
Definition minutes (n : Z) : timedelta := n * 60000000.
Definition hours (n : Z) : timedelta := n * 3600000000.
Definition days (n : Z) : timedelta := n * 86400000000.

Definition hour (d : t) : Z := (d / 3600000000) mod 24.
Definition minute (d : t) : Z := (d / 60000000) mod 60.

Definition two_digits (n : Z) : string :=
    let s := str_of_nat (Z.to_nat n) in zeros (2 - String.length s) +:+ s.

  (** [d.strftime('%H:%M')] *)
Definition strftime_HM (d : t) : string :=
    two_digits (hour d) +:+ ":" +:+ two_digits (minute d).

Definition in_range (d : Z) : bool := (min <=? d) && (d <=? max).

End datetime.

(** ** Exceptions and results *)

Inductive exn : Type :=
| ValueError (msg : string)
| OverflowError (msg : string)
| KeyError (msg : string).

(** [str(e)] *)
Definition str_of_exn (e : exn) : string :=
  match e with
  | ValueError m => m
  | OverflowError m => m
  | KeyError m => m
  end.

Inductive result (A : Type) : Type :=
| Ok (a : A)
| Raise (e : exn).
Arguments Ok {A} a.
Arguments Raise {A} e.

(** [d - td] on a datetime: Python raises [OverflowError] when the
    difference leaves [datetime.min .. datetime.max]. *)
Definition datetime_sub (d : datetime.t) (td : datetime.timedelta)
  : result datetime.t :=
  if datetime.in_range (d - td) then Ok (d - td)
  else Raise (OverflowError "date value out of range").

(** ** The data the application holds *)

(** A device, the dict built in [generate_sample_devices].  The key
    ['unit'] is spelled [unit_] here. *)
Module Device.
Record t := mk {
    device_id : string;
    name : string;
    device_type : string;
    location : string;
    status : string;
    value : Q;
    unit_ : string;
    health_score : Q;
    efficiency_score : Q;
    last_maintenance : datetime.t;
    installation_date : datetime.t;
    firmware_version : string;
    timestamp : datetime.t
  }.

  (** [device['value'] = v] and the like: assignment to one key. *)
Definition set_value (v : Q) (d : t) : t :=
    mk (device_id d) (name d) (device_type d) (location d) (status d) v
       (unit_ d) (health_score d) (efficiency_score d) (last_maintenance d)
       (installation_date d) (firmware_version d) (timestamp d).
Definition set_timestamp (ts : datetime.t) (d : t) : t :=
    mk (device_id d) (name d) (device_type d) (location d) (status d) (value d)
       (unit_ d) (health_score d) (efficiency_score d) (last_maintenance d)
       (installation_date d) (firmware_version d) ts.
Definition set_status (st : string) (d : t) : t :=
    mk (device_id d) (name d) (device_type d) (location d) st (value d)
       (unit_ d) (health_score d) (efficiency_score d) (last_maintenance d)
       (installation_date d) (firmware_version d) (timestamp d).
Definition set_health_score (h : Q) (d : t) : t :=
    mk (device_id d) (name d) (device_type d) (location d) (status d) (value d)
       (unit_ d) h (efficiency_score d) (last_maintenance d)
       (installation_date d) (firmware_version d) (timestamp d).
End Device.

(** An alert; [id] is the 128-bit integer of the UUID. *)
Module Alert.
Record t := mk {
    id : Z;
    title : string;
    message : string;
    severity : string;
    category : string;
    device_id : string;
    timestamp : datetime.t;
    acknowledged : bool;
    resolved : bool
  }.
End Alert.

(** The entries of [alert_templates] in [generate_sample_alerts]. *)
Module Template.
Record t := mk {
    title : string;
    message : string;
    severity : string;
    category : string
  }.
End Template.

(** The dict returned by [_generate_performance_trends]. *)
Module Trends.
Record t := mk {
    labels : list string;
    health_scores : list Q;
    efficiency_scores : list Q
  }.
End Trends.

(** The dict returned by [_fetch_dashboard_data]: either the snapshot or
    the error shape of the [except] branch. *)
Module Dashboard.
Record snapshot := mk {
    timestamp : datetime.t;
    system_health : Q;
    active_devices : nat;
    total_devices : nat;
    warning_devices : nat;
    critical_devices : nat;
    efficiency : Q;
    energy_usage : Q;
    performance_data : Trends.t;
    status_distribution : nat * nat * nat;  (* normal, warning, critical *)
    uptime_percent : Q;
    response_time_ms : Q
  }.

Inductive t :=
  | Snapshot (d : snapshot)
  | Error (error : string) (timestamp : datetime.t).
End Dashboard.

(** One entry of the dict returned by [get_analytics_data]. *)
Module Series.
Record t := mk {
    labels : list string;
    values : list Q;
    unit_ : string;
    threshold : Q * Q  (* min, max *)
  }.
End Series.

(** The dict returned by [get_system_status]. *)
Module Status.
Record snapshot := mk {
    timestamp : datetime.t;
    cpu_usage : Q;
    memory_usage : Q;
    disk_usage : Q;
    network_latency : Q;
    active_connections : nat;
    database_status : string;
    ai_modules_status : string;
    last_backup : datetime.t;
    uptime_hours : Q
  }.

Inductive t :=
  | Snapshot (d : snapshot)
  | Error (error : string).
End Status.

(** ** The environment

    Three sources the program reads and never controls: the words of
    numpy's global generator, the bytes of [os.urandom] behind
    [uuid.uuid4], and the successive readings of [datetime.now()].  Each
    is the sequence of values still to come; reading one drops it. *)

Record World := mkWorld {
  np_words : nat -> Z;
  os_urandom : nat -> Z;
  wall_clock : nat -> Z
}.

Definition behead {A} (f : nat -> A) : nat -> A := fun n => f (S n).

(** ** The application object

    The attributes of [EnhancedDigitalTwinApp] that the data methods use,
    and the environment. *)

Record App := mkApp {
  data_cache : gmap string Dashboard.t;
  last_cache_update : datetime.t;
  cache_ttl : datetime.timedelta;
  sample_devices : list Device.t;
  sample_alerts : list Alert.t;
  world : World
}.

Definition set_data_cache (c : gmap string Dashboard.t) (self : App) : App :=
  mkApp c (last_cache_update self) (cache_ttl self) (sample_devices self)
        (sample_alerts self) (world self).
Definition set_last_cache_update (d : datetime.t) (self : App) : App :=
  mkApp (data_cache self) d (cache_ttl self) (sample_devices self)
        (sample_alerts self) (world self).
Definition set_sample_devices (l : list Device.t) (self : App) : App :=
  mkApp (data_cache self) (last_cache_update self) (cache_ttl self) l
        (sample_alerts self) (world self).
Definition set_sample_alerts (l : list Alert.t) (self : App) : App :=
  mkApp (data_cache self) (last_cache_update self) (cache_ttl self)
        (sample_devices self) l (world self).
Definition set_world (w : World) (self : App) : App :=
  mkApp (data_cache self) (last_cache_update self) (cache_ttl self)
        (sample_devices self) (sample_alerts self) w.

(** ** Computations: state and exceptions

    A method run on [self] yields a value or raises, and leaves [self]
    as mutated up to that point. *)

Definition M (A : Type) : Type := App -> result A * App.

Definition ret {A} (a : A) : M A := fun self => (Ok a, self).

Definition bind {A B} (m : M A) (k : A -> M B) : M B :=
  fun self =>
    match m self with
    | (Ok a, self') => k a self'
    | (Raise e, self') => (Raise e, self')
    end.

Definition raise {A} (e : exn) : M A := fun self => (Raise e, self).

(** [try: body  except Exception as e: handler e] *)
Definition try_except {A} (body : M A) (handler : exn -> M A) : M A :=
  fun self =>
    match body self with
    | (Ok a, self') => (Ok a, self')
    | (Raise e, self') => handler e self'
    end.

Definition gets {A} (f : App -> A) : M A := fun self => (Ok (f self), self).
Definition modify (f : App -> App) : M unit := fun self => (Ok tt, f self).

Definition lift_result {A} (r : result A) : M A := fun self => (r, self).

Declare Scope py_scope.
Delimit Scope py_scope with py.
Notation "x <- m ;; k" := (bind m (fun x => k))
  (at level 100, m at next level, right associativity) : py_scope.
Notation "m ;; k" := (bind m (fun _ => k))
  (at level 100, right associativity) : py_scope.
Local Open Scope py_scope.

(** [for x in l: body x], collecting what each round produces. *)
Fixpoint for_each {A B} (l : list A) (body : A -> M B) : M (list B) :=
  match l with
  | [] => ret []
  | x :: l' =>
      y <- body x ;;
      ys <- for_each l' body ;;
      ret (y :: ys)
  end.

(** [range(n)] *)
Definition range (n : nat) : list Z := map Z.of_nat (seq 0 n).

(** ** Library calls that read the environment *)

(** [datetime.now()]: the next reading of the wall clock, always a valid
    datetime. *)
Definition datetime_now : M datetime.t :=
  fun self =>
    let w := world self in
    (Ok (wall_clock w 0%nat mod (datetime.max + 1)),
     set_world (mkWorld (np_words w) (os_urandom w) (behead (wall_clock w))) self).

(** [uuid.uuid4()], as its 128-bit integer. *)
Definition uuid4 : M Z :=
  fun self =>
    let w := world self in
    (Ok (os_urandom w 0%nat mod 2 ^ 128),
     set_world (mkWorld (np_words w) (behead (os_urandom w)) (wall_clock w)) self).

(** What [np.array] makes of a list depends on its items: scalars and
    dicts give one dimension, sequences of equal length add their own. *)
Class ArrayItem (A : Type) := { item_ndim : nat }.
Arguments item_ndim A {_}.

#[global] Instance string_ArrayItem : ArrayItem string := {| item_ndim := 0 |}.
#[global] Instance bool_ArrayItem : ArrayItem bool := {| item_ndim := 0 |}.
#[global] Instance Template_ArrayItem : ArrayItem Template.t := {| item_ndim := 0 |}.
#[global] Instance tuple_ArrayItem {A} `{ArrayItem A} : ArrayItem (A * A) :=
  {| item_ndim := S (item_ndim A) |}.

Module np.
Module random.

  (** One word of the generator. *)
Definition next_word : M Z :=
    fun self =>
      let w := world self in
      (Ok (np_words w 0%nat),
       set_world (mkWorld (behead (np_words w)) (os_urandom w) (wall_clock w)) self).

  (** [np.random.random()]: a 53-bit fraction, in [0, 1). *)
Definition random : M Q :=
    k <- next_word ;;
    ret (Qmake (k mod 2 ^ 53) (2 ^ 53)).

  (** [np.random.uniform(low, high)] *)
Definition uniform (low high : Q) : M Q :=
    u <- random ;;
    ret (low + (high - low) * u)%Q.

  (** [np.random.randint(low, high)], [high] exclusive. *)
Definition randint (low high : Z) : M Z :=
    if high <=? low then raise (ValueError "low >= high")
    else k <- next_word ;; ret (low + k mod (high - low)).

  (** [np.random.choice(a)]: [a] is converted with [np.array] and must
      have exactly one dimension. *)
Definition choice {A} `{ArrayItem A} (a : list A) : M A :=
    if negb (Nat.eqb (S (item_ndim A)) 1) then
      raise (ValueError "a must be 1-dimensional")
    else
      match a with
      | [] => raise (ValueError "'a' cannot be empty unless no samples are taken")
      | x :: _ =>
          idx <- randint 0 (Z.of_nat (length a)) ;;
          ret (nth (Z.to_nat idx) a x)
      end.

Fixpoint cumsum (acc : Q) (p : list Q) : list Q :=
    match p with
    | [] => []
    | x :: p' => (acc + x)%Q :: cumsum (acc + x)%Q p'
    end.

  (** [cdf.searchsorted(u, side='right')] on a non-decreasing [cdf]. *)
Fixpoint searchsorted_right (cdf : list Q) (u : Q) : nat :=
    match cdf with
    | [] => 0%nat
    | c :: cdf' => if Qle_bool c u then S (searchsorted_right cdf' u) else 0%nat
    end.

  (** [np.random.choice(a, p=p)]: inverse of the cumulative
      distribution at a uniform sample. *)
Definition choice_p {A} `{ArrayItem A} (a : list A) (p : list Q) : M A :=
    if negb (Nat.eqb (S (item_ndim A)) 1) then
      raise (ValueError "a must be 1-dimensional")
    else
      match a with
      | [] => raise (ValueError "'a' cannot be empty unless no samples are taken")
      | x :: _ =>
          if negb (Nat.eqb (length a) (length p)) then
            raise (ValueError "'a' and 'p' must have same size")
          else if negb (forallb (Qle_bool 0) p) then
            raise (ValueError "probabilities are not non-negative")
          else if negb (Qeq_bool (py_sum p) 1) then
            raise (ValueError "probabilities do not sum to 1")
          else
            u <- random ;;
            ret (nth (searchsorted_right (cumsum 0 p) u) a x)
      end.

  (** [np.random.normal(loc, scale)]: the standard deviate is read off
      one word as a signed fixed-point number. *)
Definition normal (loc scale : Q) : M Q :=
    k <- next_word ;;
    ret (loc + scale * Qmake k (2 ^ 32))%Q.

  (** [np.random.exponential(scale)]: the standard deviate is read off
      one word as a non-negative fixed-point number. *)
Definition exponential (scale : Q) : M Q :=
    k <- next_word ;;
    ret (scale * Qmake (Z.abs k) (2 ^ 32))%Q.

End random.
End np.

(** ** The methods of [EnhancedDigitalTwinApp] *)

Section EnhancedDigitalTwinApp.

  (** [np_sin_2pi t] stands for [np.sin(2 * np.pi * t)]. *)
Variable np_sin_2pi : Q -> Q.

Definition device_types : list string :=
    [ "temperature_sensor"; "pressure_sensor"; "vibration_sensor";
      "humidity_sensor"; "flow_meter" ].

Definition locations : list string :=
    [ "Production Line 1"; "Production Line 2"; "Quality Control";
      "Warehouse A"; "Warehouse B"; "Maintenance Shop" ].

  (** One round of the loop of [generate_sample_devices]. *)
Definition generate_device (i : Z) : M Device.t :=
    device_type <- np.random.choice device_types ;;
    status_rand <- np.random.random ;;
    sh <- (if Qltb 0.15 status_rand then
             h <- np.random.uniform 0.8 1.0 ;; ret ("normal", h)
           else if Qltb 0.05 status_rand then
             h <- np.random.uniform 0.5 0.8 ;; ret ("warning", h)
           else
             h <- np.random.uniform 0.1 0.5 ;; ret ("critical", h)) ;;
    vu <- (if String.eqb device_type "temperature_sensor" then
             v <- np.random.uniform 18 35 ;; ret (v, "°C")
           else if String.eqb device_type "pressure_sensor" then
             v <- np.random.uniform 900 1100 ;; ret (v, "hPa")
           else if String.eqb device_type "vibration_sensor" then
             v <- np.random.uniform 0.1 0.5 ;; ret (v, "mm/s")
           else if String.eqb device_type "humidity_sensor" then
             v <- np.random.uniform 35 75 ;; ret (v, "%RH")
           else
             v <- np.random.uniform 10 50 ;; ret (v, "L/min")) ;;
    let num := str_of_nat (Z.to_nat (i + 1)) in
    location <- np.random.choice locations ;;
    efficiency_score <- np.random.uniform 0.7 1.0 ;;
    now1 <- datetime_now ;;
    days1 <- np.random.randint 1 90 ;;
    last_maintenance <- lift_result (datetime_sub now1 (datetime.days days1)) ;;
    now2 <- datetime_now ;;
    days2 <- np.random.randint 100 1000 ;;
    installation_date <- lift_result (datetime_sub now2 (datetime.days days2)) ;;
    major <- np.random.randint 1 5 ;;
    minor <- np.random.randint 0 9 ;;
    patch <- np.random.randint 0 9 ;;
    now3 <- datetime_now ;;
    ret {| Device.device_id := "DEVICE_" +:+ fmt_03d (Z.to_nat (i + 1));
           Device.name :=
             str_title (str_replace "_" " " device_type) +:+ " " +:+ num;
           Device.device_type := device_type;
           Device.location := location;
           Device.status := fst sh;
           Device.value := py_round (fst vu) 2;
           Device.unit_ := snd vu;
           Device.health_score := snd sh;
           Device.efficiency_score := efficiency_score;
           Device.last_maintenance := last_maintenance;
           Device.installation_date := installation_date;
           Device.firmware_version :=
             str_of_nat (Z.to_nat major) +:+ "." +:+
             str_of_nat (Z.to_nat minor) +:+ "." +:+
             str_of_nat (Z.to_nat patch);
           Device.timestamp := now3 |}.

Definition generate_sample_devices : M (list Device.t) :=
    for_each (range 20) generate_device.

Definition alert_templates : list Template.t :=
    [ Template.mk "High Temperature Alert"
        "Temperature sensor reading above normal threshold"
        "warning" "environmental";
      Template.mk "Pressure Anomaly Detected"
        "Unusual pressure readings detected on production line"
        "critical" "safety";
      Template.mk "Vibration Level Elevated"
        "Machine vibration levels exceeding normal parameters"
        "warning" "maintenance";
      Template.mk "Device Communication Lost"
        "Lost communication with sensor device"
        "critical" "connectivity";
      Template.mk "Efficiency Drop Detected"
        "System efficiency has dropped below optimal levels"
        "info" "performance" ].

  (** One round of the loop of [generate_sample_alerts]. *)
Definition generate_alert (i : Z) : M Alert.t :=
    template <- np.random.choice alert_templates ;;
    n <- np.random.randint 1 21 ;;
    let device_id := "DEVICE_" +:+ fmt_03d (Z.to_nat n) in
    id <- uuid4 ;;
    now <- datetime_now ;;
    mins <- np.random.randint 1 1440 ;;
    timestamp <- lift_result (datetime_sub now (datetime.minutes mins)) ;;
    acknowledged <- np.random.choice [true; false] ;;
    r <- np.random.random ;;
    resolved <- (if Qltb 0.7 r then np.random.choice [true; false]
                 else ret false) ;;
    ret {| Alert.id := id;
           Alert.title := Template.title template;
           Alert.message := Template.message template +:+ " - " +:+ device_id;
           Alert.severity := Template.severity template;
           Alert.category := Template.category template;
           Alert.device_id := device_id;
           Alert.timestamp := timestamp;
           Alert.acknowledged := acknowledged;
           Alert.resolved := resolved |}.

  (** [alerts.sort(key=lambda x: x['timestamp'], reverse=True)]: a stable
      sort, newest first; alerts with equal keys keep their order. *)
Fixpoint insert_newest_first (a : Alert.t) (l : list Alert.t) : list Alert.t :=
    match l with
    | [] => [a]
    | b :: l' =>
        if Alert.timestamp a <? Alert.timestamp b
        then b :: insert_newest_first a l'
        else a :: b :: l'
    end.

Definition sort_newest_first (l : list Alert.t) : list Alert.t :=
    fold_right insert_newest_first [] l.

Definition generate_sample_alerts : M (list Alert.t) :=
    alerts <- for_each (range 15) generate_alert ;;
    ret (sort_newest_first alerts).

Definition initialize_sample_data : M unit :=
    devices <- generate_sample_devices ;;
    modify (set_sample_devices devices) ;;
    alerts <- generate_sample_alerts ;;
    modify (set_sample_alerts alerts).

  (** [__init__], run in a given environment: the cache attributes, then
      [initialize_sample_data] (logging and the Flask set-up hold no
      data). *)
Definition init (w : World) : result unit * App :=
    initialize_sample_data
      (mkApp ∅ datetime.min (datetime.minutes 2) [] [] w).

  (** The body of the loop of [_update_device_values], on one device. *)
Definition update_device (device : Device.t) : M Device.t :=
    let current_value := Device.value device in
    r <- np.random.uniform (-0.1) 0.1 ;;
    let variation := (r * current_value)%Q in
    let device :=
      Device.set_value
        (py_round (py_max 0 (current_value + variation)%Q) 2) device in
    now <- datetime_now ;;
    let device := Device.set_timestamp now device in
    p <- np.random.random ;;
    if Qltb p 0.05 then
      let statuses := ["normal"; "warning"; "critical"] in
      let weights := [0.7; 0.25; 0.05]%Q in
      st <- np.random.choice_p statuses weights ;;
      let device := Device.set_status st device in
      if String.eqb (Device.status device) "normal" then
        h <- np.random.uniform 0.8 1.0 ;;
        ret (Device.set_health_score h device)
      else if String.eqb (Device.status device) "warning" then
        h <- np.random.uniform 0.5 0.8 ;;
        ret (Device.set_health_score h device)
      else
        h <- np.random.uniform 0.1 0.5 ;;
        ret (Device.set_health_score h device)
    else ret device.

  (** The loop mutates each dict of [self.sample_devices] in place and
      nothing in it raises, so the list afterwards is the list of the
      updated devices. *)
Definition _update_device_values : M unit :=
    devices <- gets sample_devices ;;
    devices' <- for_each devices update_device ;;
    modify (set_sample_devices devices').

  (** The baseline chosen by the [if]/[elif]/[else] of
      [_generate_performance_trends]. *)
Definition base_health_of (hour : Z) : Z :=
    if (8 <=? hour) && (hour <=? 16) then 90
    else if ((16 <=? hour) && (hour <=? 24)) || ((0 <=? hour) && (hour <=? 8)) then 85
    else 80.

  (** One round of the loop of [_generate_performance_trends]. *)
Definition trend_point (now : datetime.t) (i : Z) : M (string * Q * Q) :=
    time_point <- lift_result (datetime_sub now (datetime.hours (23 - i))) ;;
    let hour := datetime.hour time_point in
    let base_health := base_health_of hour in
    n1 <- np.random.uniform (-5) 5 ;;
    let health := (inject_Z base_health + n1)%Q in
    let base_efficiency := base_health - 5 in
    n2 <- np.random.uniform (-8) 8 ;;
    let efficiency := (inject_Z base_efficiency + n2)%Q in
    ret (datetime.strftime_HM time_point,
         py_round (py_max 0 (py_min 100 health)) 1,
         py_round (py_max 0 (py_min 100 efficiency)) 1).

Definition _generate_performance_trends : M Trends.t :=
    now <- datetime_now ;;
    points <- for_each (range 24) (trend_point now) ;;
    ret {| Trends.labels := map (fun p => fst (fst p)) points;
           Trends.health_scores := map (fun p => snd (fst p)) points;
           Trends.efficiency_scores := map snd points |}.

Definition count_status (st : string) (devices : list Device.t) : nat :=
    length (List.filter (fun d => String.eqb (Device.status d) st) devices).

  (** The [try] block of [_fetch_dashboard_data]. *)
Definition fetch_dashboard_body : M Dashboard.t :=
    _update_device_values ;;
    devices <- gets sample_devices ;;
    let total_devices := length devices in
    let active_devices := count_status "normal" devices in
    let warning_devices := count_status "warning" devices in
    let critical_devices := count_status "critical" devices in
    let health_scores := map Device.health_score devices in
    let efficiency_scores := map Device.efficiency_score devices in
    let avg_health :=
      match health_scores with [] => 0%Q | _ => (np_mean health_scores * 100)%Q end in
    let avg_efficiency :=
      match efficiency_scores with [] => 0%Q | _ => (np_mean efficiency_scores * 100)%Q end in
    now <- datetime_now ;;
    let hour := datetime.hour now in
    let base_energy := 1200%Q in
    let hour_factor := (np_sin_2pi (inject_Z hour / 24) * 300)%Q in
    noise <- np.random.uniform (-50) 50 ;;
    let energy_usage := (base_energy + hour_factor + noise)%Q in
    performance_data <- _generate_performance_trends ;;
    timestamp <- datetime_now ;;
    uptime <- np.random.uniform 98.5 99.9 ;;
    response <- np.random.uniform 50 200 ;;
    ret (Dashboard.Snapshot
           {| Dashboard.timestamp := timestamp;
              Dashboard.system_health := py_round avg_health 1;
              Dashboard.active_devices := active_devices;
              Dashboard.total_devices := total_devices;
              Dashboard.warning_devices := warning_devices;
              Dashboard.critical_devices := critical_devices;
              Dashboard.efficiency := py_round avg_efficiency 1;
              Dashboard.energy_usage := py_round energy_usage 1;
              Dashboard.performance_data := performance_data;
              Dashboard.status_distribution :=
                (active_devices, warning_devices, critical_devices);
              Dashboard.uptime_percent := py_round uptime 2;
              Dashboard.response_time_ms := py_round response 1 |}).

Definition _fetch_dashboard_data : M Dashboard.t :=
    try_except fetch_dashboard_body
      (fun e =>
         timestamp <- datetime_now ;;
         ret (Dashboard.Error (str_of_exn e) timestamp)).

  (** [d[key]] *)
Definition getitem {V} (d : gmap string V) (key : string) : M V :=
    match d !! key with
    | Some v => ret v
    | None => raise (KeyError key)
    end.

Definition get_dashboard_data : M Dashboard.t :=
    now <- datetime_now ;;
    last <- gets last_cache_update ;;
    ttl <- gets cache_ttl ;;
    cache <- gets data_cache ;;
    (if (ttl <? now - last) || negb (bool_decide (is_Some (cache !! "dashboard")))
     then
       fresh <- _fetch_dashboard_data ;;
       modify (fun self =>
                 set_data_cache (<["dashboard" := fresh]> (data_cache self)) self) ;;
       modify (set_last_cache_update now)
     else ret tt) ;;
    cache <- gets data_cache ;;
    getitem cache "dashboard".

Definition get_devices_data : M (list Device.t) :=
    _update_device_values ;;
    gets sample_devices.

  (** The list [alert_templates] local to [_add_random_alert]: a list of
      tuples. *)
Definition new_alert_templates : list (string * string) :=
    [ ("Sensor Reading Anomaly", "warning");
      ("System Performance Alert", "info");
      ("Connection Timeout", "critical");
      ("Maintenance Required", "warning") ].

  (** The last two statements of [_add_random_alert]:
      [self.sample_alerts.insert(0, new_alert)] and
      [self.sample_alerts = self.sample_alerts[:50]]. *)
Definition insert_and_truncate (new_alert : Alert.t) : M unit :=
    modify (fun self => set_sample_alerts (new_alert :: sample_alerts self) self) ;;
    modify (fun self => set_sample_alerts (py_slice_to (sample_alerts self) 50) self).

Definition _add_random_alert : M unit :=
    picked <- np.random.choice new_alert_templates ;;
    let title := fst picked in
    let severity := snd picked in
    n <- np.random.randint 1 21 ;;
    let device_id := "DEVICE_" +:+ fmt_03d (Z.to_nat n) in
    id <- uuid4 ;;
    now <- datetime_now ;;
    let new_alert :=
      {| Alert.id := id;
         Alert.title := title;
         Alert.message := title +:+ " detected on " +:+ device_id;
         Alert.severity := severity;
         Alert.category := "system";
         Alert.device_id := device_id;
         Alert.timestamp := now;
         Alert.acknowledged := false;
         Alert.resolved := false |} in
    insert_and_truncate new_alert.

Definition get_alerts_data (limit : Z) : M (list Alert.t) :=
    r <- np.random.random ;;
    (if Qltb r 0.1 then _add_random_alert else ret tt) ;;
    alerts <- gets sample_alerts ;;
    ret (py_slice_to alerts limit).

  (** One round of the loop of [_generate_sensor_pattern]. *)
Definition sensor_point (sensor_type : string) (base_value amplitude frequency : Q)
      (i : Z) : M Q :=
    let daily_pattern :=
      (amplitude * np_sin_2pi (inject_Z i / 24 * frequency))%Q in
    noise <- np.random.normal 0 (amplitude * 0.1)%Q ;;
    dn <- (if String.eqb sensor_type "vibration" then
             p <- np.random.random ;;
             if Qltb p 0.05 then
               spike <- np.random.exponential 0.1 ;;
               ret (daily_pattern, (noise + spike)%Q)
             else ret (daily_pattern, noise)
           else if String.eqb sensor_type "power" then
             if (8 <=? i) && (i <=? 18)
             then ret ((daily_pattern + amplitude * 0.3)%Q, noise)
             else ret (daily_pattern, noise)
           else ret (daily_pattern, noise)) ;;
    let value := (base_value + fst dn + snd dn)%Q in
    let value :=
      if String.eqb sensor_type "vibration" || String.eqb sensor_type "power"
      then py_max 0 value
      else if String.eqb sensor_type "humidity"
      then py_max 0 (py_min 100 value)
      else value in
    ret (py_round value 2).

Definition _generate_sensor_pattern (sensor_type : string)
      (base_value amplitude frequency : Q) : M (list Q) :=
    for_each (range 24) (sensor_point sensor_type base_value amplitude frequency).

  (** [range(23, -1, -1)] *)
Definition range_23_down : list Z := rev (range 24).

Definition get_analytics_data : M (gmap string Series.t) :=
    try_except
      (now <- datetime_now ;;
       timestamps <-
         for_each range_23_down
           (fun i =>
              t <- lift_result (datetime_sub now (datetime.hours i)) ;;
              ret (datetime.strftime_HM t)) ;;
       temperature <- _generate_sensor_pattern "temperature" 22 3 0.1 ;;
       pressure <- _generate_sensor_pattern "pressure" 1013 20 0.05 ;;
       vibration <- _generate_sensor_pattern "vibration" 0.25 0.1 0.2 ;;
       power <- _generate_sensor_pattern "power" 1200 300 0.08 ;;
       humidity <- _generate_sensor_pattern "humidity" 55 15 0.12 ;;
       ret (list_to_map
              [ ("temperature", Series.mk timestamps temperature "°C" (18, 28)%Q);
                ("pressure", Series.mk timestamps pressure "hPa" (980, 1040)%Q);
                ("vibration", Series.mk timestamps vibration "mm/s" (0, 0.5)%Q);
                ("power", Series.mk timestamps power "W" (800, 1800)%Q);
                ("humidity", Series.mk timestamps humidity "%RH" (40, 70)%Q) ]))
      (fun e => ret ∅).

Definition get_system_status : M Status.t :=
    try_except
      (timestamp <- datetime_now ;;
       cpu <- np.random.uniform 20 80 ;;
       memory <- np.random.uniform 40 75 ;;
       disk <- np.random.uniform 45 85 ;;
       latency <- np.random.uniform 10 50 ;;
       devices <- gets sample_devices ;;
       now <- datetime_now ;;
       last_backup <- lift_result (datetime_sub now (datetime.hours 6)) ;;
       uptime <- np.random.uniform 100 500 ;;
       ret (Status.Snapshot
              {| Status.timestamp := timestamp;
                 Status.cpu_usage := py_round cpu 1;
                 Status.memory_usage := py_round memory 1;
                 Status.disk_usage := py_round disk 1;
                 Status.network_latency := py_round latency 1;
                 Status.active_connections := length devices;
                 Status.database_status := "connected";
                 Status.ai_modules_status := "operational";
                 Status.last_backup := last_backup;
                 Status.uptime_hours := py_round uptime 1 |}))
      (fun e => ret (Status.Error (str_of_exn e))).

  (** ** The states the application can be in

      The object as [__init__] leaves it, and every state that a call of
      one of the data methods leaves behind, whether the call returned
      or raised. *)
Inductive reachable : App -> Prop :=
  | reach_init w self :
      init w = (Ok tt, self) -> reachable self
  | reach_dashboard self :
      reachable self -> reachable (snd (get_dashboard_data self))
  | reach_devices self :
      reachable self -> reachable (snd (get_devices_data self))
  | reach_alerts self limit :
      reachable self -> reachable (snd (get_alerts_data limit self))
  | reach_analytics self :
      reachable self -> reachable (snd (get_analytics_data self))
  | reach_status self :
      reachable self -> reachable (snd (get_system_status self)).

End EnhancedDigitalTwinApp.

(** ** Vocabulary of the properties *)

(** What the next [datetime.now()] and [np.random.random()] will read. *)
Definition peek_now (self : App) : datetime.t :=
  wall_clock (world self) 0%nat mod (datetime.max + 1).
Definition peek_random (self : App) : Q :=
  Qmake (np_words (world self) 0%nat mod 2 ^ 53) (2 ^ 53).

(** The object after one reading of the clock, or one word of the
    generator, and nothing else. *)
Definition tick_clock (self : App) : App := snd (datetime_now self).
Definition tick_np (self : App) : App := snd (np.random.next_word self).

(** The banding policy of status and health score. *)
Definition in_band (st : string) (h : Q) : Prop :=
  (st = "normal" /\ 0.8 <= h /\ h <= 1.0)%Q \/
  (st = "warning" /\ 0.5 <= h /\ h <= 0.8)%Q \/
  (st = "critical" /\ 0.1 <= h /\ h <= 0.5)%Q.

Definition device_ok (d : Device.t) : Prop :=
  in_band (Device.status d) (Device.health_score d).

(** Newest first: every alert is at least as recent as all that follow. *)
Definition newest_first (l : list Alert.t) : Prop :=
  StronglySorted (fun a b => Alert.timestamp b <= Alert.timestamp a) l.

(** The effect of one jitter step on a device: the value moves by [r]
    times itself, is floored at zero and rounded to two decimals; what
    identifies the device stays. *)
Definition jittered (d d' : Device.t) : Prop :=
  (exists r : Q,
      (-0.1 <= r)%Q /\ (r < 0.1)%Q /\
      Device.value d' =
        py_round (py_max 0 (Device.value d + r * Device.value d)%Q) 2) /\
  (0 <= Device.value d')%Q /\
  Device.device_id d' = Device.device_id d /\
  Device.name d' = Device.name d /\
  Device.device_type d' = Device.device_type d /\
  Device.location d' = Device.location d /\
  Device.unit_ d' = Device.unit_ d /\
  Device.efficiency_score d' = Device.efficiency_score d /\
  Device.last_maintenance d' = Device.last_maintenance d /\
  Device.installation_date d' = Device.installation_date d /\
  Device.firmware_version d' = Device.firmware_version d.


(** A value clamped to [0, 100] and rounded to one decimal. *)
Definition percent_1dp (x v : Q) : Prop :=
  v = py_round (py_max 0 (py_min 100 x)) 1 /\
  (0 <= v)%Q /\ (v <= 100)%Q /\ exists k : Z, v = Qmake k 10.

(** One point of the trend series at a given hour of the day. *)
Definition trend_point_ok (hour : Z) (health efficiency : Q) : Prop :=
  exists (base : Z) (n1 n2 : Q),
    base = (if (8 <=? hour) && (hour <=? 16) then 90 else 85) /\
    (-5 <= n1)%Q /\ (n1 < 5)%Q /\ (-8 <= n2)%Q /\ (n2 < 8)%Q /\
    percent_1dp (inject_Z base + n1)%Q health /\
    percent_1dp (inject_Z (base - 5) + n2)%Q efficiency.

Section CachePolicy.

Variable np_sin_2pi : Q -> Q.

  (** The two behaviours a dashboard read can have.  Reuse: the cached
      payload is returned and only the clock has been read.  Recompute:
      [_fetch_dashboard_data] runs once, its payload replaces the entry
      and the time of the read becomes the entry's time. *)
Definition reuse (self : App) : result Dashboard.t * App :=
    match data_cache self !! "dashboard" with
    | Some cached => (Ok cached, tick_clock self)
    | None => (Raise (KeyError "dashboard"), tick_clock self)
    end.

Definition recompute (self : App) : result Dashboard.t * App :=
    match _fetch_dashboard_data np_sin_2pi (tick_clock self) with
    | (Ok fresh, self') =>
        (Ok fresh,
         set_last_cache_update (peek_now self)
           (set_data_cache (<["dashboard" := fresh]> (data_cache self')) self'))
    | (Raise e, self') => (Raise e, self')
    end.

  (** Freshness as the specification words it: an entry exists and its
      age is strictly less than the TTL. *)
Definition fresh_strict (self : App) : bool :=
    (peek_now self - last_cache_update self <? cache_ttl self)
    && bool_decide (is_Some (data_cache self !! "dashboard")).

  (** Freshness as the code tests it: an entry exists and its age does
      not exceed the TTL. *)
Definition fresh_inclusive (self : App) : bool :=
    (peek_now self - last_cache_update self <=? cache_ttl self)
    && bool_decide (is_Some (data_cache self !! "dashboard")).

  (** A dashboard read follows the freshness test [fresh]. *)
Definition cache_policy (fresh : App -> bool) (self : App) : Prop :=
    get_dashboard_data np_sin_2pi self =
      if fresh self then reuse self else recompute self.

End CachePolicy.

(** ** Concrete environments *)

(** 2022-10-03T17:46:40, in microseconds since [datetime.min]. *)
Definition demo_epoch : Z := 63800000000000000.

Definition demo_words (n : nat) : Z :=
  ((Z.of_nat n * 6364136223846793005 + 1442695040888963407) * 7919)
    mod 2 ^ 64 / 2 ^ 11.

(** A generator, an entropy source and a clock that advances by one
    millisecond per reading. *)
Definition demo_world : World :=
  mkWorld demo_words (fun n => Z.of_nat n * 1234567)
          (fun n => Z.of_nat n * 1000 + demo_epoch).

(** The same, with a clock that stands still for its first [k] readings
    and reads [later] from then on. *)
Definition stepping_world (k : nat) (later : Z) : World :=
  mkWorld demo_words (fun n => Z.of_nat n * 1234567)
          (fun n => if (n <? k)%nat then demo_epoch else later).

Definition sin_zero (t : Q) : Q := 0%Q.

Definition demo_app : App := snd (init demo_world).

(** An application whose first dashboard read happens at [demo_epoch]
    and whose next reading of the clock is exactly two minutes later. *)
Definition ttl_world : World := stepping_world 99 (demo_epoch + 120000000).
Definition ttl_app : App :=
  snd (get_dashboard_data sin_zero (snd (init ttl_world))).

(** An application whose clock, once it is set up, reads [datetime.min]. *)
Definition epoch_world : World := stepping_world 75 0.
Definition epoch_app : App := snd (init epoch_world).

(** ** Vocabulary of the proofs *)

(** Two objects with the same attributes, whatever their environments. *)
Definition same_store (s s' : App) : Prop :=
  data_cache s' = data_cache s /\
  last_cache_update s' = last_cache_update s /\
  cache_ttl s' = cache_ttl s /\
  sample_devices s' = sample_devices s /\
  sample_alerts s' = sample_alerts s.

(** A computation that neither mutates nor reads the attributes: it
    leaves them as they are, and its outcome and the environment it
    leaves depend on the environment alone. *)
Definition env_only {A} (m : M A) : Prop :=
  (forall s, same_store s (snd (m s))) /\
  (forall s1 s2, world s1 = world s2 ->
     fst (m s1) = fst (m s2) /\ world (snd (m s1)) = world (snd (m s2))).

(** [I] survives a run of [m], whether it returns or raises. *)
Definition preserves {A} (I : App -> Prop) (m : M A) : Prop :=
  forall s, I s -> I (snd (m s)).

(** [I] speaks of the attributes only. *)
Definition store_based (I : App -> Prop) : Prop :=
  forall s s', same_store s s' -> I s -> I s'.

(** Whatever [m] returns satisfies [P]. *)
Definition returns {A} (P : A -> Prop) (m : M A) : Prop :=
  forall s a s', m s = (Ok a, s') -> P a.

Definition devices_ok (self : App) : Prop := Forall device_ok (sample_devices self).

Definition alerts_are (l : list Alert.t) (self : App) : Prop := sample_alerts self = l.

(** [m] always returns. *)
Definition never_raises {A} (m : M A) : Prop :=
  forall s, exists a s', m s = (Ok a, s').

(** An alert as [_add_random_alert] would build it at [demo_epoch]. *)
Definition demo_alert : Alert.t :=
  {| Alert.id := 1;
     Alert.title := "Connection Timeout";
     Alert.message := "Connection Timeout detected on DEVICE_007";
     Alert.severity := "critical";
     Alert.category := "system";
     Alert.device_id := "DEVICE_007";
     Alert.timestamp := demo_epoch;
     Alert.acknowledged := false;
     Alert.resolved := false |}.

(** An alert of the same kind raised [k] minutes after [demo_epoch]. *)
Definition alert_at (k : Z) : Alert.t :=
  {| Alert.id := k;
     Alert.title := "Connection Timeout";
     Alert.message := "Connection Timeout detected on DEVICE_007";
     Alert.severity := "critical";
     Alert.category := "system";
     Alert.device_id := "DEVICE_007";
     Alert.timestamp := demo_epoch + datetime.minutes k;
     Alert.acknowledged := false;
     Alert.resolved := false |}.

(** An application whose alert collection is at the cap: fifty alerts,
    one a minute, newest first. *)
Definition full_app : App :=
  set_sample_alerts (map alert_at (rev (range 50))) demo_app.

(** ** Vocabulary of the further properties *)

(** What one round of [_update_device_values] may do to the status of a
    device: leave it and the health score alone, or draw a new status
    with a health score in its band. *)
Definition status_kept_or_redrawn (d d' : Device.t) : Prop :=
  (Device.status d' = Device.status d /\
   Device.health_score d' = Device.health_score d) \/
  in_band (Device.status d') (Device.health_score d').

Definition updated (d d' : Device.t) : Prop :=
  jittered d d' /\ status_kept_or_redrawn d d'.

(** The unit that [generate_sample_devices] gives to a device type. *)
Definition unit_for (device_type : string) : string :=
  if String.eqb device_type "temperature_sensor" then "°C"
  else if String.eqb device_type "pressure_sensor" then "hPa"
  else if String.eqb device_type "vibration_sensor" then "mm/s"
  else if String.eqb device_type "humidity_sensor" then "%RH"
  else "L/min".

(** The interval from which it draws the first value of a device. *)
Definition value_range_for (device_type : string) : Q * Q :=
  if String.eqb device_type "temperature_sensor" then (18, 35)%Q
  else if String.eqb device_type "pressure_sensor" then (900, 1100)%Q
  else if String.eqb device_type "vibration_sensor" then (0.1, 0.5)%Q
  else if String.eqb device_type "humidity_sensor" then (35, 75)%Q
  else (10, 50)%Q.

Definition device_well_formed (d : Device.t) : Prop :=
  In (Device.device_type d) device_types /\
  In (Device.location d) locations /\
  Device.unit_ d = unit_for (Device.device_type d) /\
  (0 <= Device.value d)%Q /\
  (exists k : Z, Device.value d = Qmake k 100) /\
  (0.7 <= Device.efficiency_score d)%Q /\
  (Device.efficiency_score d <= 1.0)%Q.

Definition value_in_range (d : Device.t) : Prop :=
  (fst (value_range_for (Device.device_type d)) <= Device.value d)%Q /\
  (Device.value d <= snd (value_range_for (Device.device_type d)))%Q.

(** [DEVICE_001] to [DEVICE_020]. *)
Definition device_ids : list string :=
  map (fun i => "DEVICE_" +:+ fmt_03d (Z.to_nat (i + 1))) (range 20).

Definition devices_are (l : list Device.t) (self : App) : Prop :=
  sample_devices self = l.

(** A new value within ten percent of the old one, up to the half cent
    that rounding to two decimals can add. *)
Definition within_ten_percent (d d' : Device.t) : Prop :=
  (0.9 * Device.value d - 0.005 <= Device.value d')%Q /\
  (Device.value d' <= 1.1 * Device.value d + 0.005)%Q.

(** The cache attributes are as given. *)
Definition cache_is (c : gmap string Dashboard.t) (last : datetime.t)
    (ttl : datetime.timedelta) (self : App) : Prop :=
  data_cache self = c /\ last_cache_update self = last /\ cache_ttl self = ttl.

(** The cache attributes of a running application: the TTL of two
    minutes, no key but ['dashboard'], and the initial time stamp as long
    as nothing is cached. *)
Definition cache_well_formed (self : App) : Prop :=
  cache_ttl self = datetime.minutes 2 /\
  (forall key, is_Some (data_cache self !! key) -> key = "dashboard") /\
  (data_cache self !! "dashboard" = None -> last_cache_update self = datetime.min).

(** A dashboard snapshot that agrees with itself and with the policy of
    the generator: twenty devices split over the three statuses, the
    averages and the simulated service figures in their ranges, and
    twenty-four points of trend. *)
Definition snapshot_consistent (d : Dashboard.snapshot) : Prop :=
  Dashboard.total_devices d = 20%nat /\
  (Dashboard.active_devices d + Dashboard.warning_devices d
   + Dashboard.critical_devices d = Dashboard.total_devices d)%nat /\
  Dashboard.status_distribution d =
    (Dashboard.active_devices d, Dashboard.warning_devices d,
     Dashboard.critical_devices d) /\
  (10 <= Dashboard.system_health d)%Q /\ (Dashboard.system_health d <= 100)%Q /\
  (70 <= Dashboard.efficiency d)%Q /\ (Dashboard.efficiency d <= 100)%Q /\
  (98.5 <= Dashboard.uptime_percent d)%Q /\ (Dashboard.uptime_percent d <= 99.9)%Q /\
  (50 <= Dashboard.response_time_ms d)%Q /\ (Dashboard.response_time_ms d <= 200)%Q /\
  length (Trends.labels (Dashboard.performance_data d)) = 24%nat /\
  length (Trends.health_scores (Dashboard.performance_data d)) = 24%nat /\
  length (Trends.efficiency_scores (Dashboard.performance_data d)) = 24%nat.

(** The reading of the wall clock that lies [k] calls of [datetime.now()]
    ahead. *)
Definition clock_reading (self : App) (k : nat) : datetime.t :=
  wall_clock (world self) k mod (datetime.max + 1).

(** The figures of a status snapshot lie in the intervals they are drawn
    from. *)
Definition status_in_range (d : Status.snapshot) : Prop :=
  (20 <= Status.cpu_usage d)%Q /\ (Status.cpu_usage d <= 80)%Q /\
  (40 <= Status.memory_usage d)%Q /\ (Status.memory_usage d <= 75)%Q /\
  (45 <= Status.disk_usage d)%Q /\ (Status.disk_usage d <= 85)%Q /\
  (10 <= Status.network_latency d)%Q /\ (Status.network_latency d <= 50)%Q /\
  (100 <= Status.uptime_hours d)%Q /\ (Status.uptime_hours d <= 500)%Q.

(** An alert as [generate_sample_alerts] builds it: the title, severity
    and category of one of the five templates, and the template's message
    followed by the device the alert is about. *)
Definition alert_from_template (a : Alert.t) : Prop :=
  exists t,
    In t alert_templates /\
    Alert.title a = Template.title t /\
    Alert.message a = Template.message t +:+ " - " +:+ Alert.device_id a /\
    Alert.severity a = Template.severity t /\
    Alert.category a = Template.category t.

(** The number of items of [l[:limit]] for a list of [n] items. *)
Definition slice_length (n limit : Z) : Z :=
  if limit <? 0 then Z.max 0 (n + limit) else Z.min limit n.

(** What [_generate_sensor_pattern] guarantees of a value of a sensor
    kind: two decimals; not negative for vibration and power; within
    [0, 100] for humidity. *)
Definition sensor_value_ok (kind : string) (v : Q) : Prop :=
  (exists k : Z, v = Qmake k 100) /\
  (kind = "vibration" \/ kind = "power" -> (0 <= v)%Q) /\
  (kind = "humidity" -> (0 <= v)%Q /\ (v <= 100)%Q).

(** The labels of a chart drawn at [now]: the time of day of the last 24
    hours, oldest first. *)
Definition hour_labels (now : datetime.t) : list string :=
  map (fun i => datetime.strftime_HM (now - datetime.hours i)) range_23_down.

(** * Properties *)

(** ** Arithmetic of the built-ins *)

Lemma Qltb_true x y : Qltb x y = true <-> (x < y)%Q.
Proof.
  unfold Qltb. rewrite negb_true_iff. split.
  - intros H. apply Qnot_le_lt. intros Hle. apply Qle_bool_iff in Hle. congruence.
  - intros H. destruct (Qle_bool y x) eqn:E; [|reflexivity].
    apply Qle_bool_iff in E. exfalso. apply (Qlt_not_le _ _ H E).
Qed.

Lemma Qltb_false x y : Qltb x y = false <-> (y <= x)%Q.
Proof.
  unfold Qltb. rewrite negb_false_iff. apply Qle_bool_iff.
Qed.

Lemma py_max_lower a b : (a <= py_max a b)%Q.
Proof.
  unfold py_max. destruct (Qltb a b) eqn:E.
  - apply Qltb_true in E. apply Qlt_le_weak, E.
  - apply Qle_refl.
Qed.

Lemma py_max_upper a b c : (a <= c)%Q -> (b <= c)%Q -> (py_max a b <= c)%Q.
Proof. unfold py_max. destruct (Qltb a b); auto. Qed.

Lemma py_min_upper a b : (py_min a b <= a)%Q.
Proof.
  unfold py_min. destruct (Qltb b a) eqn:E.
  - apply Qltb_true in E. apply Qlt_le_weak, E.
  - apply Qle_refl.
Qed.

Lemma clamp_bounds x : (0 <= py_max 0 (py_min 100 x) /\ py_max 0 (py_min 100 x) <= 100)%Q.
Proof.
  split; [apply py_max_lower|].
  apply py_max_upper; [lra | apply py_min_upper].
Qed.

Lemma round_half_even_bounds (a b : Z) (x : Q) :
  (inject_Z a <= x)%Q -> (x <= inject_Z b)%Q ->
  a <= round_half_even x <= b.
Proof.
  intros Ha Hb.
  assert (Hfa : a <= Qfloor x).
  { rewrite <- (Qfloor_Z a). apply Qfloor_resp_le, Ha. }
  assert (Hfx := Qfloor_le x).
  assert (Hfb : Qfloor x <= b).
  { apply Qfloor_resp_le in Hb. rewrite Qfloor_Z in Hb. exact Hb. }
  assert (Hstep : (inject_Z (Qfloor x) < x)%Q -> Qfloor x + 1 <= b).
  { intros Hlt. assert (H : (inject_Z (Qfloor x) < inject_Z b)%Q) by (eapply Qlt_le_trans; eauto).
    rewrite <- Zlt_Qlt in H. lia. }
  unfold round_half_even.
  destruct (Qcompare_spec (x - inject_Z (Qfloor x)) (1 # 2)) as [He|Hl|Hg].
  - destruct (Z.even (Qfloor x)); [lia|].
    split; [lia|]. apply Hstep. lra.
  - lia.
  - split; [lia|]. apply Hstep. lra.
Qed.

Lemma py_round_bounds (a b : Z) (x : Q) (n : nat) :
  (inject_Z a <= x)%Q -> (x <= inject_Z b)%Q ->
  (inject_Z a <= py_round x n)%Q /\ (py_round x n <= inject_Z b)%Q.
Proof.
  intros Ha Hb. unfold py_round.
  set (p := pow10 n).
  destruct (round_half_even_bounds (a * Zpos p) (b * Zpos p) (x * inject_Z (Zpos p))) as [H1 H2].
  - rewrite inject_Z_mult. apply Qmult_le_compat_r; [exact Ha|]. 
    rewrite <- (Zle_Qle 0). lia.
  - rewrite inject_Z_mult. apply Qmult_le_compat_r; [exact Hb|].
    rewrite <- (Zle_Qle 0). lia.
  - unfold Qle; simpl. split; nia.
Qed.

Lemma unit_fraction_bounds (k : Z) :
  (0 <= Qmake (k mod 2 ^ 53) (2 ^ 53) /\ Qmake (k mod 2 ^ 53) (2 ^ 53) < 1)%Q.
Proof.
  assert (H : 0 <= k mod 2 ^ 53 < 2 ^ 53) by (apply Z.mod_pos_bound; lia).
  unfold Qle, Qlt; simpl. 
  change (Z.pos (2 ^ 53)) with (2 ^ 53). lia.
Qed.

Lemma uniform_bounds (low high u : Q) :
  (low <= high)%Q -> (0 <= u)%Q -> (u < 1)%Q ->
  (low <= low + (high - low) * u /\ low + (high - low) * u <= high)%Q.
Proof. intros. split; nra. Qed.

(** ** Computations that touch the environment only *)

Lemma same_store_refl s : same_store s s.
Proof. repeat split. Qed.

Lemma same_store_trans s1 s2 s3 :
  same_store s1 s2 -> same_store s2 s3 -> same_store s1 s3.
Proof.
  unfold same_store. intros (?&?&?&?&?) (?&?&?&?&?). repeat split; congruence.
Qed.

Lemma same_store_set_world w s : same_store s (set_world w s).
Proof. repeat split. Qed.


Lemma env_only_ret {A} (a : A) : env_only (ret a).
Proof. split; intros; simpl; auto using same_store_refl. Qed.

Lemma env_only_raise {A} (e : exn) : env_only (@raise A e).
Proof. split; intros; simpl; auto using same_store_refl. Qed.

Lemma env_only_lift_result {A} (r : result A) : env_only (lift_result r).
Proof. split; intros; simpl; auto using same_store_refl. Qed.

Lemma env_only_bind {A B} (m : M A) (k : A -> M B) :
    env_only m -> (forall a, env_only (k a)) -> env_only (bind m k).
Proof.
    intros [Hs Hi] Hk. split.
    - intros s. unfold bind. specialize (Hs s).
      destruct (m s) as [[a|e] s']; simpl in *; [|exact Hs].
      eapply same_store_trans; [exact Hs|]. apply (Hk a).
    - intros s1 s2 Hw. unfold bind. specialize (Hi s1 s2 Hw).
      destruct (m s1) as [[a1|e1] s1'], (m s2) as [[a2|e2] s2']; simpl in *;
        destruct Hi as [Hr Hw']; inversion Hr; subst; auto.
      apply (Hk a2); exact Hw'.
Qed.

Lemma env_only_try_except {A} (m : M A) (h : exn -> M A) :
    env_only m -> (forall e, env_only (h e)) -> env_only (try_except m h).
Proof.
    intros [Hs Hi] Hh. split.
    - intros s. unfold try_except. specialize (Hs s).
      destruct (m s) as [[a|e] s']; simpl in *; [exact Hs|].
      eapply same_store_trans; [exact Hs|]. apply (Hh e).
    - intros s1 s2 Hw. unfold try_except. specialize (Hi s1 s2 Hw).
      destruct (m s1) as [[a1|e1] s1'], (m s2) as [[a2|e2] s2']; simpl in *;
        destruct Hi as [Hr Hw']; inversion Hr; subst; auto.
      apply (Hh e2); exact Hw'.
Qed.

Lemma env_only_for_each {A B} (l : list A) (body : A -> M B) :
    (forall x, env_only (body x)) -> env_only (for_each l body).
Proof.
    intros Hb. induction l as [|x l IH]; simpl.
    - apply env_only_ret.
    - apply env_only_bind; [apply Hb|]. intros y.
      apply env_only_bind; [exact IH|]. intros ys. apply env_only_ret.
Qed.

Lemma env_only_datetime_now : env_only datetime_now.
Proof. split; intros; simpl; [repeat split|]. rewrite H. auto. Qed.

Lemma env_only_uuid4 : env_only uuid4.
Proof. split; intros; simpl; [repeat split|]. rewrite H. auto. Qed.

Lemma env_only_next_word : env_only np.random.next_word.
Proof. split; intros; simpl; [repeat split|]. rewrite H. auto. Qed.

Ltac env_only_step :=
  lazymatch goal with
  | |- env_only (bind _ _) => apply env_only_bind; [ | intro ]
  | |- env_only (ret _) => apply env_only_ret
  | |- env_only (raise _) => apply env_only_raise
  | |- env_only (lift_result _) => apply env_only_lift_result
  | |- env_only (try_except _ _) => apply env_only_try_except; [ | intro ]
  | |- env_only (for_each _ _) => apply env_only_for_each; intro
  | |- env_only datetime_now => apply env_only_datetime_now
  | |- env_only uuid4 => apply env_only_uuid4
  | |- env_only np.random.next_word => apply env_only_next_word
  | |- env_only (if ?b then _ else _) => destruct b
  | |- env_only (match ?x with _ => _ end) => destruct x
  | |- env_only _ => solve [ auto with env_only ]
  end.
Ltac env_only_tac := repeat env_only_step.

Create HintDb env_only.

Lemma env_only_random : env_only np.random.random.
Proof. unfold np.random.random. env_only_tac. Qed.
#[export] Hint Resolve env_only_random : env_only.

Lemma env_only_uniform low high : env_only (np.random.uniform low high).
Proof. unfold np.random.uniform. env_only_tac. Qed.
#[export] Hint Resolve env_only_uniform : env_only.

Lemma env_only_randint low high : env_only (np.random.randint low high).
Proof. unfold np.random.randint. env_only_tac. Qed.
#[export] Hint Resolve env_only_randint : env_only.

Lemma env_only_choice {A} `{ArrayItem A} (a : list A) : env_only (np.random.choice a).
Proof. unfold np.random.choice. env_only_tac. Qed.
#[export] Hint Resolve env_only_choice : env_only.

Lemma env_only_choice_p {A} `{ArrayItem A} (a : list A) p : env_only (np.random.choice_p a p).
Proof. unfold np.random.choice_p. env_only_tac. Qed.
#[export] Hint Resolve env_only_choice_p : env_only.

Lemma env_only_normal loc scale : env_only (np.random.normal loc scale).
Proof. unfold np.random.normal. env_only_tac. Qed.
#[export] Hint Resolve env_only_normal : env_only.

Lemma env_only_exponential scale : env_only (np.random.exponential scale).
Proof. unfold np.random.exponential. env_only_tac. Qed.
#[export] Hint Resolve env_only_exponential : env_only.

Lemma env_only_generate_device i : env_only (generate_device i).
Proof. unfold generate_device. env_only_tac. Qed.

Lemma env_only_generate_alert i : env_only (generate_alert i).
Proof. unfold generate_alert. env_only_tac. Qed.

Lemma env_only_update_device d : env_only (update_device d).
Proof. unfold update_device. cbv zeta. env_only_tac. Qed.

Lemma env_only_trend_point now i : env_only (trend_point now i).
Proof. unfold trend_point. cbv zeta. env_only_tac. Qed.

Lemma env_only_performance_trends : env_only _generate_performance_trends.
Proof. unfold _generate_performance_trends. env_only_tac. apply env_only_trend_point. Qed.

Lemma env_only_sensor_point f ty b a fr i : env_only (sensor_point f ty b a fr i).
Proof. unfold sensor_point. cbv zeta. env_only_tac. Qed.

Lemma env_only_get_analytics_data f : env_only (get_analytics_data f).
Proof. unfold get_analytics_data, _generate_sensor_pattern. env_only_tac; apply env_only_sensor_point. Qed.

(** ** Invariants across a computation *)

Lemma preserves_env_only {A} (I : App -> Prop) (m : M A) :
  store_based I -> env_only m -> preserves I m.
Proof. intros HI [Hs _] s Hs0. eapply HI; [apply Hs|exact Hs0]. Qed.

Lemma preserves_ret {A} I (a : A) : preserves I (ret a).
Proof. intros s H. exact H. Qed.

Lemma preserves_raise {A} I (e : exn) : preserves I (@raise A e).
Proof. intros s H. exact H. Qed.

Lemma preserves_gets {A} I (f : App -> A) : preserves I (gets f).
Proof. intros s H. exact H. Qed.

Lemma preserves_modify I (f : App -> App) :
  (forall s, I s -> I (f s)) -> preserves I (modify f).
Proof. intros Hf s H. apply Hf, H. Qed.

Lemma preserves_bind {A B} I (m : M A) (k : A -> M B) :
  preserves I m -> (forall a, preserves I (k a)) -> preserves I (bind m k).
Proof.
  intros Hm Hk s H. unfold bind. specialize (Hm s H).
  destruct (m s) as [[a|e] s']; simpl in *; [apply Hk, Hm|exact Hm].
Qed.

Lemma preserves_try_except {A} I (m : M A) (h : exn -> M A) :
  preserves I m -> (forall e, preserves I (h e)) -> preserves I (try_except m h).
Proof.
  intros Hm Hh s H. unfold try_except. specialize (Hm s H).
  destruct (m s) as [[a|e] s']; simpl in *; [exact Hm|apply Hh, Hm].
Qed.

Lemma preserves_for_each {A B} I (l : list A) (body : A -> M B) :
  (forall x, preserves I (body x)) -> preserves I (for_each l body).
Proof.
  intros Hb. induction l as [|x l IH]; simpl.
  - apply preserves_ret.
  - apply preserves_bind; [apply Hb|]. intros y.
    apply preserves_bind; [exact IH|]. intros ys. apply preserves_ret.
Qed.

Lemma preserves_getitem {V} I (d : gmap string V) key : preserves I (getitem d key).
Proof. unfold getitem. destruct (d !! key); intros s H; exact H. Qed.

Create HintDb preserves.

Ltac preserves_step :=
  lazymatch goal with
  | |- preserves _ (bind _ _) => apply preserves_bind; [ | intro ]
  | |- preserves _ (ret _) => apply preserves_ret
  | |- preserves _ (raise _) => apply preserves_raise
  | |- preserves _ (gets _) => apply preserves_gets
  | |- preserves _ (getitem _ _) => apply preserves_getitem
  | |- preserves _ (try_except _ _) => apply preserves_try_except; [ | intro ]
  | |- preserves _ (for_each _ _) => apply preserves_for_each; intro
  | |- preserves _ (modify _) => apply preserves_modify; solve [ auto with preserves ]
  | |- preserves _ (if ?b then _ else _) => destruct b
  | |- preserves _ _ =>
      first [ solve [ auto with preserves ]
            | apply preserves_env_only;
              [ solve [ auto with preserves ]
              | solve [ auto with env_only | env_only_tac ] ] ]
  end.
Ltac preserves_tac := repeat preserves_step.

#[export] Hint Resolve env_only_generate_device env_only_generate_alert
  env_only_update_device env_only_trend_point env_only_performance_trends
  env_only_sensor_point env_only_get_analytics_data
  env_only_datetime_now env_only_uuid4 env_only_next_word : env_only.

(** ** What returns *)

Lemma returns_ret {A} (P : A -> Prop) (a : A) : P a -> returns P (ret a).
Proof. intros H s a' s' E. inversion E; subst. exact H. Qed.

Lemma returns_raise {A} (P : A -> Prop) (e : exn) : returns P (raise e).
Proof. intros s a' s' E. inversion E. Qed.

Lemma returns_bind {A B} (R : A -> Prop) (P : B -> Prop) (m : M A) (k : A -> M B) :
  returns R m -> (forall a, R a -> returns P (k a)) -> returns P (bind m k).
Proof.
  intros Hm Hk s b s' E. unfold bind in E.
  destruct (m s) as [[a|e] s1] eqn:Em; [|inversion E].
  eapply Hk; [eapply Hm; exact Em|exact E].
Qed.

Lemma returns_bind_any {A B} (P : B -> Prop) (m : M A) (k : A -> M B) :
  (forall a, returns P (k a)) -> returns P (bind m k).
Proof.
  intros Hk. apply returns_bind with (R := fun _ => True); [|auto].
  intros s a s' _. exact I.
Qed.

Lemma returns_for_each {A B} (P : A -> Prop) (Q : B -> Prop) (l : list A) (body : A -> M B) :
  (forall x, P x -> returns Q (body x)) ->
  Forall P l -> returns (Forall Q) (for_each l body).
Proof.
  intros Hb Hl. induction Hl as [|x l Hx Hl IH]; simpl.
  - apply returns_ret. constructor.
  - apply returns_bind with (R := Q); [apply Hb, Hx|]. intros y Hy.
    apply returns_bind with (R := Forall Q); [exact IH|]. intros ys Hys.
    apply returns_ret. constructor; assumption.
Qed.

Lemma returns_for_each_length {A B} (l : list A) (body : A -> M B) :
  returns (fun ys => length ys = length l) (for_each l body).
Proof.
  induction l as [|x l IH]; simpl.
  - apply returns_ret. reflexivity.
  - apply returns_bind_any. intros y.
    apply returns_bind with (R := fun ys => length ys = length l); [exact IH|].
    intros ys Hys. apply returns_ret. simpl. congruence.
Qed.

Lemma returns_uniform (low high : Q) :
  (low <= high)%Q ->
  returns (fun v => low <= v /\ v <= high)%Q (np.random.uniform low high).
Proof.
  intros Hlh s v s' E. inversion E; subst. 
  destruct (unit_fraction_bounds (np_words (world s) 0)) as [H0 H1].
  apply uniform_bounds; assumption.
Qed.

Lemma returns_choice_p (a : list string) (p : list Q) :
  returns (fun x => In x a) (np.random.choice_p a p).
Proof.
  unfold np.random.choice_p. simpl.
  destruct a as [|x a]; [apply returns_raise|].
  repeat match goal with
         | |- returns _ (if ?b then _ else _) => destruct b; [apply returns_raise|]
         end.
  apply returns_bind_any. intros u. apply returns_ret.
  destruct (nth_in_or_default (np.random.searchsorted_right (np.random.cumsum 0 p) u) (x :: a) x) as [H|H];
    [exact H|rewrite H; left; reflexivity].
Qed.

(** ** Devices: status and health score stay in their band *)

Lemma in_band_normal h : (0.8 <= h)%Q -> (h <= 1.0)%Q -> in_band "normal" h.
Proof. intros. left. auto. Qed.
Lemma in_band_warning h : (0.5 <= h)%Q -> (h <= 0.8)%Q -> in_band "warning" h.
Proof. intros. right. left. auto. Qed.
Lemma in_band_critical h : (0.1 <= h)%Q -> (h <= 0.5)%Q -> in_band "critical" h.
Proof. intros. right. right. auto. Qed.

(** Drawing the health score for a status that has just been drawn. *)
Lemma returns_band_normal (k : Q -> Device.t) :
  (forall h, Device.status (k h) = "normal" /\ Device.health_score (k h) = h) ->
  returns device_ok (h <- np.random.uniform 0.8 1.0 ;; ret (k h)).
Proof.
  intros Hk. eapply returns_bind; [apply returns_uniform; lra|].
  intros h [H1 H2]. apply returns_ret. unfold device_ok.
  destruct (Hk h) as [-> ->]. apply in_band_normal; assumption.
Qed.

Lemma returns_band_warning (k : Q -> Device.t) :
  (forall h, Device.status (k h) = "warning" /\ Device.health_score (k h) = h) ->
  returns device_ok (h <- np.random.uniform 0.5 0.8 ;; ret (k h)).
Proof.
  intros Hk. eapply returns_bind; [apply returns_uniform; lra|].
  intros h [H1 H2]. apply returns_ret. unfold device_ok.
  destruct (Hk h) as [-> ->]. apply in_band_warning; assumption.
Qed.

Lemma returns_band_critical (k : Q -> Device.t) :
  (forall h, Device.status (k h) = "critical" /\ Device.health_score (k h) = h) ->
  returns device_ok (h <- np.random.uniform 0.1 0.5 ;; ret (k h)).
Proof.
  intros Hk. eapply returns_bind; [apply returns_uniform; lra|].
  intros h [H1 H2]. apply returns_ret. unfold device_ok.
  destruct (Hk h) as [-> ->]. apply in_band_critical; assumption.
Qed.

Lemma update_device_ok (d : Device.t) :
  device_ok d -> returns device_ok (update_device d).
Proof.
  intros Hd. unfold update_device. cbv zeta.
  apply returns_bind_any; intros r.
  apply returns_bind_any; intros now.
  apply returns_bind_any; intros p.
  destruct (Qltb p 0.05).
  - eapply returns_bind; [apply returns_choice_p|].
    intros st Hst. simpl in Hst.
    destruct Hst as [<-|[<-|[<-|[]]]]; simpl.
    + apply (returns_band_normal (fun h => Device.set_health_score h _)). auto.
    + apply (returns_band_warning (fun h => Device.set_health_score h _)). auto.
    + apply (returns_band_critical (fun h => Device.set_health_score h _)). auto.
  - apply returns_ret. exact Hd.
Qed.

Lemma generate_device_ok (i : Z) : returns device_ok (generate_device i).
Proof.
  unfold generate_device.
  apply returns_bind_any; intros device_type.
  apply returns_bind_any; intros status_rand.
  apply returns_bind with (R := fun sh => in_band (fst sh) (snd sh)).
  { destruct (Qltb 0.15 status_rand); [|destruct (Qltb 0.05 status_rand)];
      (eapply returns_bind; [apply returns_uniform; lra|]);
      intros h [H1 H2]; apply returns_ret; simpl.
    - apply in_band_normal; assumption.
    - apply in_band_warning; assumption.
    - apply in_band_critical; assumption. }
  intros sh Hsh.
  repeat (apply returns_bind_any; intro).
  apply returns_ret. exact Hsh.
Qed.

Lemma generate_sample_devices_ok :
  returns (Forall device_ok) generate_sample_devices.
Proof.
  unfold generate_sample_devices.
  apply returns_for_each with (P := fun _ => True).
  - intros i _. apply generate_device_ok.
  - apply Forall_forall. auto.
Qed.


Lemma devices_ok_store_based : store_based devices_ok.
Proof. intros s s' (_&_&_&H&_) Hs. unfold devices_ok. rewrite H. exact Hs. Qed.
#[export] Hint Resolve devices_ok_store_based : preserves.

Lemma devices_ok_set_data_cache c s : devices_ok s -> devices_ok (set_data_cache c s).
Proof. auto. Qed.
Lemma devices_ok_set_last_cache_update d s : devices_ok s -> devices_ok (set_last_cache_update d s).
Proof. auto. Qed.
Lemma devices_ok_set_sample_alerts l s : devices_ok s -> devices_ok (set_sample_alerts l s).
Proof. auto. Qed.
#[export] Hint Resolve devices_ok_set_data_cache devices_ok_set_last_cache_update
  devices_ok_set_sample_alerts : preserves.

Lemma update_device_values_ok : preserves devices_ok _update_device_values.
Proof.
  intros s Hs. unfold _update_device_values, bind, gets, modify. 
  destruct (for_each (sample_devices s) update_device s) as [[l'|e] s1] eqn:E; simpl.
  - unfold devices_ok; simpl.
    eapply (returns_for_each device_ok device_ok); [apply update_device_ok|exact Hs|exact E].
  - eapply devices_ok_store_based; [|exact Hs].
    assert (H : env_only (for_each (sample_devices s) update_device)) by env_only_tac.
    destruct H as [H _]. specialize (H s). rewrite E in H. exact H.
Qed.
#[export] Hint Resolve update_device_values_ok : preserves.

Section DevicesInvariant.
Variable np_sin_2pi : Q -> Q.

Lemma get_devices_data_ok : preserves devices_ok get_devices_data.
Proof. unfold get_devices_data. preserves_tac. Qed.

Lemma add_random_alert_raises (self : App) :
  _add_random_alert self = (Raise (ValueError "a must be 1-dimensional"), self).
Proof. reflexivity. Qed.

Lemma get_alerts_data_devices_ok limit : preserves devices_ok (get_alerts_data limit).
Proof.
  unfold get_alerts_data. preserves_tac.
  intros s Hs. rewrite add_random_alert_raises. exact Hs.
Qed.

Lemma get_dashboard_data_devices_ok : preserves devices_ok (get_dashboard_data np_sin_2pi).
Proof.
  unfold get_dashboard_data, _fetch_dashboard_data, fetch_dashboard_body.
  cbv zeta. preserves_tac.
Qed.

Lemma get_analytics_data_devices_ok : preserves devices_ok (get_analytics_data np_sin_2pi).
Proof. preserves_tac. Qed.

Lemma get_system_status_devices_ok : preserves devices_ok get_system_status.
Proof. unfold get_system_status. preserves_tac. Qed.

Lemma init_devices_ok w self : init w = (Ok tt, self) -> devices_ok self.
Proof.
  unfold init, initialize_sample_data, bind, modify. intros E.
  destruct (generate_sample_devices _) as [[ds|e] s1] eqn:E1; [|inversion E].
  destruct (generate_sample_alerts _) as [[al|e] s2] eqn:E2; inversion E; subst; clear E.
  assert (H : env_only generate_sample_alerts).
  { unfold generate_sample_alerts. env_only_tac. }
  destruct H as [H _]. specialize (H (set_sample_devices ds s1)). rewrite E2 in H.
  destruct H as (_&_&_&H&_). unfold devices_ok. simpl in *. rewrite H.
  eapply generate_sample_devices_ok. exact E1.
Qed.

(** C2.  In every state the application can reach ([__init__], then any
    calls of the data methods), each device's status is one of normal,
    warning, critical and its health score lies in the band of that
    status: [0.8, 1.0], [0.5, 0.8] or [0.1, 0.5]. *)
Theorem devices_stay_in_band (self : App) :
  reachable np_sin_2pi self ->
  Forall (fun d =>
            In (Device.status d) ["normal"; "warning"; "critical"] /\
            in_band (Device.status d) (Device.health_score d))
         (sample_devices self).
Proof.
  intros Hr.
  assert (H : devices_ok self).
  { induction Hr.
    - eapply init_devices_ok; eassumption.
    - apply get_dashboard_data_devices_ok, IHHr.
    - apply get_devices_data_ok, IHHr.
    - apply get_alerts_data_devices_ok, IHHr.
    - apply get_analytics_data_devices_ok, IHHr.
    - apply get_system_status_devices_ok, IHHr. }
  unfold devices_ok in H. eapply Forall_impl; [exact H|].
  intros d Hd. split; [|exact Hd].
  destruct Hd as [[-> _]|[[-> _]|[-> _]]]; simpl; auto.
Qed.
End DevicesInvariant.

(** ** Alerts: what the methods do to the collection *)

Lemma alerts_are_store_based l : store_based (alerts_are l).
Proof. intros s s' (_&_&_&_&H) Hs. unfold alerts_are. rewrite H. exact Hs. Qed.
#[export] Hint Resolve alerts_are_store_based : preserves.

Lemma alerts_are_set_data_cache l c s : alerts_are l s -> alerts_are l (set_data_cache c s).
Proof. auto. Qed.
Lemma alerts_are_set_last_cache_update l d s :
  alerts_are l s -> alerts_are l (set_last_cache_update d s).
Proof. auto. Qed.
Lemma alerts_are_set_sample_devices l ds s :
  alerts_are l s -> alerts_are l (set_sample_devices ds s).
Proof. auto. Qed.
#[export] Hint Resolve alerts_are_set_data_cache alerts_are_set_last_cache_update
  alerts_are_set_sample_devices : preserves.

Lemma insert_newest_first_length a l :
  length (insert_newest_first a l) = S (length l).
Proof.
  induction l as [|b l IH]; simpl; [reflexivity|].
  destruct (Alert.timestamp a <? Alert.timestamp b); simpl; congruence.
Qed.

Lemma sort_newest_first_length l : length (sort_newest_first l) = length l.
Proof.
  induction l as [|a l IH]; simpl; [reflexivity|].
  rewrite insert_newest_first_length. congruence.
Qed.

Lemma insert_newest_first_In a x l :
  In x (insert_newest_first a l) -> x = a \/ In x l.
Proof.
  induction l as [|b l IH]; simpl.
  - intros [<-|[]]. auto.
  - destruct (Alert.timestamp a <? Alert.timestamp b); simpl.
    + intros [<-|H]; auto. destruct (IH H); auto.
    + intros [<-|[<-|H]]; auto.
Qed.

Lemma insert_newest_first_sorted a l :
  newest_first l -> newest_first (insert_newest_first a l).
Proof.
  unfold newest_first. induction 1 as [|b l Hl IH Hb]; simpl.
  - repeat constructor.
  - destruct (Z.ltb_spec (Alert.timestamp a) (Alert.timestamp b)) as [Hlt|Hge].
    + constructor; [exact IH|].
      apply List.Forall_forall. intros x Hx.
      apply insert_newest_first_In in Hx. destruct Hx as [->|Hx]; [lia|].
      rewrite List.Forall_forall in Hb. apply Hb, Hx.
    + constructor; [constructor; assumption|].
      constructor; [exact Hge|].
      eapply List.Forall_impl; [|exact Hb]. simpl. intros x Hx. lia.
Qed.

Lemma sort_newest_first_sorted l : newest_first (sort_newest_first l).
Proof.
  induction l as [|a l IH]; simpl; [constructor|].
  apply insert_newest_first_sorted, IH.
Qed.

Lemma generate_sample_alerts_shape :
  returns (fun l => newest_first l /\ length l = 15%nat) generate_sample_alerts.
Proof.
  unfold generate_sample_alerts.
  eapply returns_bind; [apply returns_for_each_length|].
  intros l Hl. apply returns_ret. split.
  - apply sort_newest_first_sorted.
  - rewrite sort_newest_first_length. exact Hl.
Qed.

Lemma init_alerts w self :
  init w = (Ok tt, self) ->
  newest_first (sample_alerts self) /\ length (sample_alerts self) = 15%nat.
Proof.
  unfold init, initialize_sample_data, bind, modify. intros E.
  destruct (generate_sample_devices _) as [[ds|e] s1] eqn:E1; [|inversion E].
  destruct (generate_sample_alerts _) as [[al|e] s2] eqn:E2; inversion E; subst; clear E.
  simpl. eapply generate_sample_alerts_shape. exact E2.
Qed.

Lemma In_drop {A} (x : A) (n : nat) (l : list A) : In x (drop n l) -> In x l.
Proof.
  revert n. induction l as [|y l IH]; intros [|n]; simpl; auto.
  intros H. right. eapply IH, H.
Qed.

Lemma take_split_sorted (new : Alert.t) (l : list Alert.t) (n : nat) :
  newest_first l ->
  forall a b, In a (take n l) -> In b (drop n l) ->
              Alert.timestamp b <= Alert.timestamp a.
Proof.
  intros Hs. revert n. induction Hs as [|x l Hl IH Hx]; intros n a b Ha Hb.
  - destruct n; simpl in *; contradiction.
  - destruct n as [|n]; simpl in *; [contradiction|].
    destruct Ha as [<-|Ha].
    + rewrite List.Forall_forall in Hx. apply Hx.
      eapply In_drop, Hb.
    + eapply IH; eassumption.
Qed.

Section AlertsInvariant.
Variable np_sin_2pi : Q -> Q.

Lemma get_alerts_data_keeps_alerts l limit : preserves (alerts_are l) (get_alerts_data limit).
Proof.
  unfold get_alerts_data. preserves_tac.
  intros s Hs. rewrite add_random_alert_raises. exact Hs.
Qed.

Lemma get_dashboard_data_keeps_alerts l :
  preserves (alerts_are l) (get_dashboard_data np_sin_2pi).
Proof.
  unfold get_dashboard_data, _fetch_dashboard_data, fetch_dashboard_body,
    _update_device_values.
  cbv zeta. preserves_tac.
Qed.

Lemma get_devices_data_keeps_alerts l : preserves (alerts_are l) get_devices_data.
Proof. unfold get_devices_data, _update_device_values. preserves_tac. Qed.

Lemma get_analytics_data_keeps_alerts l :
  preserves (alerts_are l) (get_analytics_data np_sin_2pi).
Proof. preserves_tac. Qed.

Lemma get_system_status_keeps_alerts l : preserves (alerts_are l) get_system_status.
Proof. unfold get_system_status. preserves_tac. Qed.

(** The alerts of a reachable application are those [__init__] made. *)
Lemma reachable_alerts (self : App) :
  reachable np_sin_2pi self ->
  exists w self0, init w = (Ok tt, self0) /\ sample_alerts self = sample_alerts self0.
Proof.
  induction 1 as [w self E|self _ IH|self _ IH|self limit _ IH|self _ IH|self _ IH].
  - exists w, self. auto.
  - destruct IH as (w & s0 & E & H). exists w, s0. split; [exact E|].
    apply (get_dashboard_data_keeps_alerts (sample_alerts s0)), H.
  - destruct IH as (w & s0 & E & H). exists w, s0. split; [exact E|].
    apply (get_devices_data_keeps_alerts (sample_alerts s0)), H.
  - destruct IH as (w & s0 & E & H). exists w, s0. split; [exact E|].
    apply (get_alerts_data_keeps_alerts (sample_alerts s0)), H.
  - destruct IH as (w & s0 & E & H). exists w, s0. split; [exact E|].
    apply (get_analytics_data_keeps_alerts (sample_alerts s0)), H.
  - destruct IH as (w & s0 & E & H). exists w, s0. split; [exact E|].
    apply (get_system_status_keeps_alerts (sample_alerts s0)), H.
Qed.

Lemma insert_and_truncate_alerts new self :
  sample_alerts (snd (insert_and_truncate new self)) = take 50 (new :: sample_alerts self).
Proof. reflexivity. Qed.

(** C3.  The cap of 50.  Every reachable state holds at most 50 alerts,
    and a call of [get_alerts_data] on a collection of at most 50 leaves
    at most 50.  The insert-then-truncate step of [_add_random_alert],
    whatever the collection holds, keeps [min(50, n + 1)] alerts, the new
    one in front of the first of the old ones; what it drops is the tail
    beyond the cap, and when the collection is newest first nothing it
    drops is newer than anything it keeps. *)
Theorem alerts_capped (self : App) (new : Alert.t) :
  let alerts := sample_alerts self in
  let kept := sample_alerts (snd (insert_and_truncate new self)) in
  let evicted := drop 50 (new :: alerts) in
  (reachable np_sin_2pi self -> (length alerts <= 50)%nat) /\
  ((length alerts <= 50)%nat ->
   forall limit,
     (length (sample_alerts (snd (get_alerts_data limit self))) <= 50)%nat) /\
  length kept = Nat.min 50 (S (length alerts)) /\
  length evicted = (S (length alerts) - 50)%nat /\
  (kept ++ evicted)%list = new :: alerts /\
  (newest_first (new :: alerts) ->
   forall a b, In a kept -> In b evicted ->
               Alert.timestamp b <= Alert.timestamp a).
Proof.
  cbv zeta. split.
  { intros Hr. destruct (reachable_alerts self Hr) as (w & s0 & E & H).
    destruct (init_alerts w s0 E) as [_ Hlen]. rewrite H, Hlen. lia. }
  split.
  { intros Hlen limit.
    rewrite (get_alerts_data_keeps_alerts (sample_alerts self) limit self eq_refl).
    exact Hlen. }
  rewrite insert_and_truncate_alerts.
  split; [rewrite length_take; simpl; lia|].
  split; [rewrite length_drop; simpl; lia|].
  split; [apply take_drop|].
  intros Hs a b. apply (take_split_sorted new); exact Hs.
Qed.

(** C5.  In every reachable state the alert collection is sorted by
    timestamp, newest first; and the insert-then-truncate step keeps it
    so whenever the new alert is at least as recent as the alerts
    already there. *)
Theorem alerts_newest_first (self : App) (new : Alert.t) :
  reachable np_sin_2pi self ->
  newest_first (sample_alerts self) /\
  (Forall (fun a => Alert.timestamp a <= Alert.timestamp new) (sample_alerts self) ->
   newest_first (sample_alerts (snd (insert_and_truncate new self)))).
Proof.
  intros Hr. destruct (reachable_alerts self Hr) as (w & s0 & E & H).
  destruct (init_alerts w s0 E) as [Hs _]. rewrite <- H in Hs.
  split; [exact Hs|]. intros Hnew.
  rewrite insert_and_truncate_alerts.
  assert (Hall : newest_first (new :: sample_alerts self)).
  { constructor; [exact Hs|]. apply List.Forall_forall. rewrite List.Forall_forall in Hnew. exact Hnew. }
  unfold newest_first in *.
  rewrite <- (take_drop 50 (new :: sample_alerts self)) in Hall.
  revert Hall. generalize (take 50 (new :: sample_alerts self)) as k.
  intros k. induction k as [|x k IH]; simpl; intros Hk; [constructor|].
  inversion Hk; subst. constructor; [apply IH; assumption|].
  rewrite List.Forall_forall in *. intros y Hy. apply H3. apply in_or_app. auto.
Qed.

(** C4 (what the code does on the 10% branch).  When the draw of
    [get_alerts_data] is below 0.1 the call enters [_add_random_alert],
    where [np.random.choice] is given a list of tuples, a two-dimensional
    array: the call raises [ValueError] and no alert is prepended. *)
Theorem new_alert_branch_raises (limit : Z) (self : App) :
  Qltb (peek_random self) 0.1 = true ->
  get_alerts_data limit self =
    (Raise (ValueError "a must be 1-dimensional"), tick_np self) /\
  sample_alerts (tick_np self) = sample_alerts self.
Proof.
  intros H. split; [|reflexivity].
  unfold get_alerts_data, bind, np.random.random, ret.
  unfold peek_random in H. simpl. rewrite H. reflexivity.
Qed.

Lemma get_alerts_data_prefix (limit : Z) (self : App) :
  0 <= limit ->
  Qltb (peek_random self) 0.1 = false ->
  get_alerts_data limit self =
    (Ok (take (Z.to_nat limit) (sample_alerts self)), tick_np self).
Proof.
  intros Hl H.
  unfold get_alerts_data, bind, np.random.random, ret.
  unfold peek_random in H. simpl. rewrite H. simpl.
  unfold py_slice_to. destruct (Z.ltb_spec limit 0); [lia|reflexivity].
Qed.

End AlertsInvariant.

(** ** The dashboard cache *)

Section DashboardCache.
Variable np_sin_2pi : Q -> Q.

Lemma fetch_dashboard_data_returns (self : App) :
  exists fresh self', _fetch_dashboard_data np_sin_2pi self = (Ok fresh, self').
Proof.
  unfold _fetch_dashboard_data, try_except.
  destruct (fetch_dashboard_body np_sin_2pi self) as [[p|e] s1]; eauto.
Qed.

Lemma fetch_dashboard_data_error (self : App) (e : exn) :
  fst (fetch_dashboard_body np_sin_2pi self) = Raise e ->
  exists ts self',
    _fetch_dashboard_data np_sin_2pi self = (Ok (Dashboard.Error (str_of_exn e) ts), self').
Proof.
  unfold _fetch_dashboard_data, try_except.
  destruct (fetch_dashboard_body np_sin_2pi self) as [[p|e'] s1]; simpl; intros H;
    inversion H; subst. eauto.
Qed.

Lemma stale_test (ttl age : Z) (b : bool) :
  (ttl <? age) || negb b = negb ((age <=? ttl) && b).
Proof. rewrite negb_andb, Z.leb_antisym, negb_involutive. reflexivity. Qed.

Lemma get_dashboard_data_policy (self : App) :
  cache_policy np_sin_2pi fresh_inclusive self.
Proof.
  unfold cache_policy, fresh_inclusive, reuse, recompute, peek_now, tick_clock.
  destruct self as [c l t ds al w].
  unfold get_dashboard_data.
  cbv [bind datetime_now gets set_world world data_cache last_cache_update cache_ttl
       sample_devices sample_alerts snd fst].
  rewrite stale_test.
  destruct ((_ <=? t) && _) eqn:Hf; cbv [negb].
  - apply andb_true_iff in Hf. destruct Hf as [_ Hc].
    apply bool_decide_eq_true in Hc. destruct Hc as [p Hp]. 
    cbv [ret getitem]. rewrite Hp. reflexivity.
  - match goal with
    | |- context [_fetch_dashboard_data _ ?s] =>
        destruct (_fetch_dashboard_data np_sin_2pi s) as [[p|e] s1]
    end; [|reflexivity].
    cbv [modify set_data_cache set_last_cache_update data_cache last_cache_update cache_ttl
         sample_devices sample_alerts world getitem ret].
    rewrite lookup_insert_eq. reflexivity.
Qed.

(** C1, as amended.  A dashboard read returns the cached payload
    unchanged, touching nothing but the clock, exactly when an entry
    exists and its age [now - last_cache_update] does not exceed the TTL;
    otherwise [_fetch_dashboard_data] runs once, returns a payload, and
    that payload replaces the entry, stamped with the time of the read. *)
Theorem dashboard_cache_ttl (self : App) :
  cache_policy np_sin_2pi fresh_inclusive self /\
  exists fresh self',
    _fetch_dashboard_data np_sin_2pi (tick_clock self) = (Ok fresh, self') /\
    recompute np_sin_2pi self =
      (Ok fresh,
       set_last_cache_update (peek_now self)
         (set_data_cache (<["dashboard" := fresh]> (data_cache self')) self')).
Proof.
  split; [apply get_dashboard_data_policy|].
  destruct (fetch_dashboard_data_returns (tick_clock self)) as (p & s1 & E).
  exists p, s1. split; [exact E|]. unfold recompute. rewrite E. reflexivity.
Qed.

(** C9.  When the cache is stale and the aggregate computation raises,
    [get_dashboard_data] returns the error-shaped payload, stores it as
    the cache entry and stamps the entry with the time of the read; any
    later read that finds this entry at an age below the TTL returns the
    same error payload and computes nothing. *)
Theorem failed_aggregate_is_cached (self : App) (e : exn) :
  fresh_inclusive self = false ->
  fst (fetch_dashboard_body np_sin_2pi (tick_clock self)) = Raise e ->
  exists ts self',
    let err := Dashboard.Error (str_of_exn e) ts in
    get_dashboard_data np_sin_2pi self = (Ok err, self') /\
    data_cache self' !! "dashboard" = Some err /\
    last_cache_update self' = peek_now self /\
    forall later : App,
      data_cache later !! "dashboard" = Some err ->
      last_cache_update later = peek_now self ->
      peek_now later - peek_now self < cache_ttl later ->
      get_dashboard_data np_sin_2pi later = (Ok err, tick_clock later).
Proof.
  intros Hstale Hraise.
  destruct (fetch_dashboard_data_error _ _ Hraise) as (ts & s1 & E).
  exists ts. eexists. cbv zeta.
  split.
  { rewrite get_dashboard_data_policy, Hstale. unfold recompute. rewrite E. reflexivity. }
  split; [simpl; apply lookup_insert_eq|].
  split; [reflexivity|].
  intros later Hc Hl Hage.
  rewrite get_dashboard_data_policy.
  assert (Hf : fresh_inclusive later = true).
  { unfold fresh_inclusive. rewrite Hl, Hc. apply andb_true_iff. split.
    - apply Z.leb_le. lia.
    - apply bool_decide_eq_true. eauto. }
  rewrite Hf. unfold reuse. rewrite Hc. reflexivity.
Qed.

End DashboardCache.

Lemma ttl_app_reachable : reachable sin_zero ttl_app.
Proof.
  unfold ttl_app. apply reach_dashboard.
  apply reach_init with (w := ttl_world).
  vm_compute. reflexivity.
Qed.

(** C1, as stated, fails: a reachable application whose cache entry is
    exactly two minutes old reuses the entry, where a strict test
    [age < TTL] would have it recompute. *)
Lemma strict_ttl_refuted :
  reachable sin_zero ttl_app /\
  is_Some (data_cache ttl_app !! "dashboard") /\
  peek_now ttl_app - last_cache_update ttl_app = cache_ttl ttl_app /\
  ~ cache_policy sin_zero fresh_strict ttl_app.
Proof.
  split; [exact ttl_app_reachable|].
  split; [vm_compute; eauto|].
  split; [vm_compute; reflexivity|].
  unfold cache_policy. intros H.
  apply (f_equal (fun r => last_cache_update (snd r))) in H.
  vm_compute in H. discriminate H.
Qed.

Lemma failed_aggregate_is_cached_witness :
  fresh_inclusive epoch_app = false /\
  fst (fetch_dashboard_body sin_zero (tick_clock epoch_app)) =
    Raise (OverflowError "date value out of range") /\
  exists ts self',
    let err := Dashboard.Error "date value out of range" ts in
    get_dashboard_data sin_zero epoch_app = (Ok err, self') /\
    data_cache self' !! "dashboard" = Some err /\
    last_cache_update self' = peek_now epoch_app /\
    forall later : App,
      data_cache later !! "dashboard" = Some err ->
      last_cache_update later = peek_now epoch_app ->
      peek_now later - peek_now epoch_app < cache_ttl later ->
      get_dashboard_data sin_zero later = (Ok err, tick_clock later).
Proof.
  split; [vm_compute; reflexivity|].
  split; [vm_compute; reflexivity|].
  apply (failed_aggregate_is_cached sin_zero epoch_app
           (OverflowError "date value out of range")).
  - vm_compute; reflexivity.
  - vm_compute; reflexivity.
Defined.

(** ** What one call of a library function yields *)

Lemma datetime_now_run (self : App) :
  datetime_now self = (Ok (peek_now self), tick_clock self).
Proof. reflexivity. Qed.

Lemma random_run (self : App) :
  np.random.random self = (Ok (peek_random self), tick_np self).
Proof. reflexivity. Qed.

Lemma uniform_run (low high : Q) (self : App) :
  np.random.uniform low high self =
    (Ok (low + (high - low) * peek_random self)%Q, tick_np self).
Proof. reflexivity. Qed.

Lemma choice_p_statuses_run (self : App) :
  np.random.choice_p ["normal"; "warning"; "critical"] [0.7; 0.25; 0.05]%Q self =
    (Ok (nth (np.random.searchsorted_right
                (np.random.cumsum 0 [0.7; 0.25; 0.05]%Q) (peek_random self))
             ["normal"; "warning"; "critical"] "normal"),
     tick_np self).
Proof. reflexivity. Qed.

Lemma peek_random_bounds (self : App) :
  (0 <= peek_random self /\ peek_random self < 1)%Q.
Proof. apply unit_fraction_bounds. Qed.

Lemma uniform_bounds_strict (low high u : Q) :
  (low < high)%Q -> (0 <= u)%Q -> (u < 1)%Q ->
  (low <= low + (high - low) * u /\ low + (high - low) * u < high)%Q.
Proof. intros. split; nra. Qed.

Lemma round_half_even_lower (a : Z) (x : Q) :
  (inject_Z a <= x)%Q -> a <= round_half_even x.
Proof.
  intros Ha.
  assert (Hfa : a <= Qfloor x).
  { rewrite <- (Qfloor_Z a). apply Qfloor_resp_le, Ha. }
  unfold round_half_even.
  destruct (Qcompare _ _); [destruct (Z.even _)| |]; lia.
Qed.

Lemma py_round_nonneg (x : Q) (n : nat) : (0 <= x)%Q -> (0 <= py_round x n)%Q.
Proof.
  intros Hx. unfold py_round.
  assert (H : 0 <= round_half_even (x * inject_Z (Z.pos (pow10 n)))).
  { apply round_half_even_lower. change (inject_Z 0) with 0%Q.
    apply Qmult_le_0_compat; [exact Hx|]. rewrite <- (Zle_Qle 0). lia. }
  unfold Qle; simpl. lia.
Qed.

(** ** The jitter of the device values *)

Ltac run_with lem := unfold bind at 1; rewrite lem; cbv beta iota.

Lemma update_device_run (d : Device.t) (self : App) :
  exists d' self',
    update_device d self = (Ok d', self') /\
    jittered d d' /\
    Device.timestamp d' = peek_now self /\
    (forall n, wall_clock (world self') n = wall_clock (world self) (S n)) /\
    same_store self self'.
Proof.
  unfold update_device. cbv zeta.
  run_with uniform_run. run_with datetime_now_run. run_with random_run.
  set (r := (-0.1 + (0.1 - -0.1) * peek_random self)%Q).
  assert (Hr : (-0.1 <= r /\ r < 0.1)%Q).
  { destruct (peek_random_bounds self). apply uniform_bounds_strict; [lra|assumption..]. }
  assert (Hj : forall d', 
     Device.value d' = py_round (py_max 0 (Device.value d + r * Device.value d)%Q) 2 ->
     Device.device_id d' = Device.device_id d -> Device.name d' = Device.name d ->
     Device.device_type d' = Device.device_type d -> Device.location d' = Device.location d ->
     Device.unit_ d' = Device.unit_ d -> Device.efficiency_score d' = Device.efficiency_score d ->
     Device.last_maintenance d' = Device.last_maintenance d ->
     Device.installation_date d' = Device.installation_date d ->
     Device.firmware_version d' = Device.firmware_version d -> jittered d d').
  { intros d' Hv. intros. unfold jittered. split; [exists r; tauto|].
    split; [|tauto]. rewrite Hv. apply py_round_nonneg, py_max_lower. }
  destruct (Qltb _ 0.05).
  - run_with choice_p_statuses_run.
    match goal with
    | |- context [Device.set_status ?drawn _] => generalize drawn; intros st
    end.
    repeat match goal with
           | |- context [if ?b then _ else _] => destruct b
           end.
    all: run_with uniform_run; do 2 eexists.
    all: split; [reflexivity|].
    all: split; [apply Hj; reflexivity|].
    all: split; [reflexivity|].
    all: split; [reflexivity|repeat split].
  - do 2 eexists. split; [reflexivity|].
    split; [apply Hj; reflexivity|].
    split; [reflexivity|]. split; [reflexivity|repeat split].
Qed.

Lemma update_loop_run (l : list Device.t) :
  forall self, exists l' self',
    for_each l update_device self = (Ok l', self') /\
    Forall2 jittered l l' /\
    (forall (i : nat) d', l' !! i = Some d' ->
       Device.timestamp d' = wall_clock (world self) i mod (datetime.max + 1)) /\
    (forall n, wall_clock (world self') n = wall_clock (world self) (length l + n)%nat) /\
    same_store self self'.
Proof.
  induction l as [|d l IH]; intros self.
  - exists [], self. simpl. repeat split; auto using Forall2_nil.
    intros i d' H. destruct i; discriminate H.
  - destruct (update_device_run d self) as (d' & s1 & E1 & Hj & Ht & Hc1 & Hs1).
    destruct (IH s1) as (l' & s2 & E2 & Hjs & Hts & Hc2 & Hs2).
    exists (d' :: l'), s2. simpl.
    unfold bind at 1. rewrite E1. unfold bind at 1. rewrite E2.
    split; [reflexivity|].
    split; [constructor; assumption|].
    split.
    { intros [|i] x H; simpl in H.
      - inversion H; subst. exact Ht.
      - rewrite (Hts i x H), Hc1. reflexivity. }
    split.
    { intros n. rewrite Hc2, Hc1; reflexivity. }
    eapply same_store_trans; eassumption.
Qed.


(** ** Computations that always return *)

Lemma never_raises_ret {A} (a : A) : never_raises (ret a).
Proof. intros s. eauto. Qed.

Lemma never_raises_bind {A B} (m : M A) (k : A -> M B) :
  never_raises m -> (forall a, never_raises (k a)) -> never_raises (bind m k).
Proof.
  intros Hm Hk s. destruct (Hm s) as (a & s1 & E). destruct (Hk a s1) as (b & s2 & E2).
  exists b, s2. unfold bind. rewrite E. exact E2.
Qed.

Lemma never_raises_for_each {A B} (l : list A) (body : A -> M B) :
  (forall x, never_raises (body x)) -> never_raises (for_each l body).
Proof.
  intros Hb. induction l as [|x l IH]; simpl.
  - apply never_raises_ret.
  - apply never_raises_bind; [apply Hb|]. intros y.
    apply never_raises_bind; [exact IH|]. intros ys. apply never_raises_ret.
Qed.

Lemma never_raises_random : never_raises np.random.random.
Proof. intros s. rewrite random_run. eauto. Qed.

Lemma never_raises_uniform low high : never_raises (np.random.uniform low high).
Proof. intros s. rewrite uniform_run. eauto. Qed.

Lemma never_raises_normal loc scale : never_raises (np.random.normal loc scale).
Proof. intros s. unfold np.random.normal, bind, np.random.next_word, ret. eauto. Qed.

Lemma never_raises_exponential scale : never_raises (np.random.exponential scale).
Proof. intros s. unfold np.random.exponential, bind, np.random.next_word, ret. eauto. Qed.

Ltac never_raises_step :=
  lazymatch goal with
  | |- never_raises (bind _ _) => apply never_raises_bind; [ | intro ]
  | |- never_raises (ret _) => apply never_raises_ret
  | |- never_raises (for_each _ _) => apply never_raises_for_each; intro
  | |- never_raises np.random.random => apply never_raises_random
  | |- never_raises (np.random.uniform _ _) => apply never_raises_uniform
  | |- never_raises (np.random.normal _ _) => apply never_raises_normal
  | |- never_raises (np.random.exponential _) => apply never_raises_exponential
  | |- never_raises (if ?b then _ else _) => destruct b
  end.
Ltac never_raises_tac := repeat never_raises_step.

Lemma never_raises_sensor_point f ty b a fr i : never_raises (sensor_point f ty b a fr i).
Proof. unfold sensor_point. cbv zeta. never_raises_tac. Qed.

Lemma generate_sensor_pattern_run f ty b a fr (self : App) :
  exists values self',
    _generate_sensor_pattern f ty b a fr self = (Ok values, self') /\
    length values = 24%nat.
Proof.
  unfold _generate_sensor_pattern.
  destruct (never_raises_for_each (range 24) (sensor_point f ty b a fr)
              (never_raises_sensor_point f ty b a fr) self) as (vs & s1 & E).
  exists vs, s1. split; [exact E|].
  apply (returns_for_each_length _ _ _ _ _ E).
Qed.

(** ** Hours of the day *)

Lemma peek_now_range (self : App) : 0 <= peek_now self <= datetime.max.
Proof.
  unfold peek_now.
  assert (H : 0 <= wall_clock (world self) 0 mod (datetime.max + 1) < datetime.max + 1).
  { apply Z.mod_pos_bound. unfold datetime.max. lia. }
  lia.
Qed.

Lemma datetime_hour_range (d : datetime.t) : 0 <= datetime.hour d <= 23.
Proof.
  unfold datetime.hour.
  assert (H : 0 <= (d / 3600000000) mod 24 < 24) by (apply Z.mod_pos_bound; lia).
  lia.
Qed.

Lemma base_health_of_day (hour : Z) :
  0 <= hour <= 23 ->
  base_health_of hour = (if (8 <=? hour) && (hour <=? 16) then 90 else 85) /\
  base_health_of hour <> 80.
Proof.
  intros H. unfold base_health_of.
  repeat match goal with
         | |- context [?a <=? ?b] => destruct (Z.leb_spec a b)
         end; simpl; split; (reflexivity || lia).
Qed.

Lemma datetime_sub_hours (now i : Z) :
  datetime.hours 23 <= now <= datetime.max -> 0 <= i <= 23 ->
  datetime_sub now (datetime.hours i) = Ok (now - datetime.hours i).
Proof.
  intros Hn Hi. unfold datetime_sub, datetime.in_range.
  assert (H1 : (datetime.min <=? now - datetime.hours i) = true).
  { apply Z.leb_le. generalize Hn. unfold datetime.hours, datetime.min. lia. }
  assert (H2 : (now - datetime.hours i <=? datetime.max) = true).
  { apply Z.leb_le. generalize Hn. unfold datetime.hours. lia. }
  rewrite H1, H2. reflexivity.
Qed.

Lemma percent_1dp_intro (x : Q) : percent_1dp x (py_round (py_max 0 (py_min 100 x)) 1).
Proof.
  unfold percent_1dp. split; [reflexivity|].
  destruct (clamp_bounds x) as [H0 H100].
  destruct (py_round_bounds 0 100 _ 1 H0 H100) as [H1 H2].
  split; [exact H1|]. split; [exact H2|].
  eexists. reflexivity.
Qed.

(** ** The performance trends *)

Lemma trend_point_run (now i : Z) (self : App) :
  datetime.hours 23 <= now <= datetime.max -> 0 <= i <= 23 ->
  exists p self',
    trend_point now i self = (Ok p, self') /\
    fst (fst p) = datetime.strftime_HM (now - datetime.hours (23 - i)) /\
    trend_point_ok (datetime.hour (now - datetime.hours (23 - i)))
                   (snd (fst p)) (snd p).
Proof.
  intros Hn Hi. unfold trend_point. cbv zeta.
  unfold bind at 1. rewrite datetime_sub_hours by (exact Hn || lia).
  unfold lift_result. cbv beta iota.
  run_with uniform_run. run_with uniform_run.
  do 2 eexists. split; [reflexivity|]. split; [reflexivity|].
  simpl fst; simpl snd.
  set (hour := datetime.hour _).
  destruct (base_health_of_day hour (datetime_hour_range _)) as [Hb _].
  exists (base_health_of hour). do 2 eexists.
  split; [exact Hb|].
  pose proof (peek_random_bounds self) as [? ?].
  pose proof (peek_random_bounds (tick_np self)) as [? ?].
  split; [|split; [|split; [|split; [|split; apply percent_1dp_intro]]]].
  all: apply uniform_bounds_strict; (lra || assumption).
Qed.

Lemma for_each_run_Forall2 {A B} (I : A -> Prop) (R : A -> B -> Prop)
    (l : list A) (body : A -> M B) :
  Forall I l ->
  (forall x s, I x -> exists y s', body x s = (Ok y, s') /\ R x y) ->
  forall s, exists ys s', for_each l body s = (Ok ys, s') /\ Forall2 R l ys.
Proof.
  intros Hl Hb. induction Hl as [|x l Hx Hl IH]; intros s.
  - exists [], s. split; [reflexivity|constructor].
  - destruct (Hb x s Hx) as (y & s1 & E1 & Hy).
    destruct (IH s1) as (ys & s2 & E2 & Hys).
    exists (y :: ys), s2. simpl. unfold bind at 1. rewrite E1.
    unfold bind at 1. rewrite E2. split; [reflexivity|constructor; assumption].
Qed.

Lemma range_bounds (n : nat) : Forall (fun i => 0 <= i <= Z.of_nat n - 1) (range n).
Proof.
  unfold range. apply List.Forall_forall. intros x Hx.
  apply in_map_iff in Hx. destruct Hx as (k & <- & Hk).
  apply in_seq in Hk. lia.
Qed.

Lemma lookup_map {A B} (f : A -> B) (l : list A) (i : nat) :
  map f l !! i = option_map f (l !! i).
Proof.
  revert i. induction l as [|x l IH]; intros [|i]; simpl; auto.
Qed.

Lemma range_lookup (n i : nat) (x : Z) : range n !! i = Some x -> x = Z.of_nat i.
Proof.
  unfold range. rewrite lookup_map.
  destruct (seq 0 n !! i) as [k|] eqn:E; simpl; [|discriminate].
  intros H; inversion H; subst. apply lookup_seq in E. lia.
Qed.

(** C10.  For every hour 0..23 the health baseline is 90 (hours 8 to 16)
    or 85 (otherwise), never 80; and with a clock at least 23 hours past
    [datetime.min], [_generate_performance_trends] returns 24 points
    whose health and efficiency are the baseline (minus 5 for efficiency)
    plus bounded noise, clamped to [0, 100] and rounded to one decimal. *)
Theorem performance_trends_baselines (self : App) :
  datetime.hours 23 <= peek_now self ->
  (forall hour, 0 <= hour <= 23 ->
     base_health_of hour = (if (8 <=? hour) && (hour <=? 16) then 90 else 85) /\
     base_health_of hour <> 80) /\
  exists trends self',
    _generate_performance_trends self = (Ok trends, self') /\
    length (Trends.labels trends) = 24%nat /\
    length (Trends.health_scores trends) = 24%nat /\
    length (Trends.efficiency_scores trends) = 24%nat /\
    forall (i : nat) health efficiency,
      Trends.health_scores trends !! i = Some health ->
      Trends.efficiency_scores trends !! i = Some efficiency ->
      trend_point_ok
        (datetime.hour (peek_now self - datetime.hours (23 - Z.of_nat i)))
        health efficiency.
Proof.
  intros Hnow. split; [exact base_health_of_day|].
  assert (Hn : datetime.hours 23 <= peek_now self <= datetime.max).
  { split; [exact Hnow|apply peek_now_range]. }
  unfold _generate_performance_trends. run_with datetime_now_run.
  destruct (for_each_run_Forall2
              (fun i => 0 <= i <= 23)
              (fun i p => trend_point_ok
                            (datetime.hour (peek_now self - datetime.hours (23 - i)))
                            (snd (fst p)) (snd p))
              (range 24) (trend_point (peek_now self)) (range_bounds 24)) 
    with (s := tick_clock self) as (points & s1 & E & HR).
  { intros i s Hi. destruct (trend_point_run (peek_now self) i s Hn Hi) as (p & s' & Ep & _ & Hp).
    eauto. }
  unfold bind at 1. rewrite E. unfold ret.
  do 2 eexists. split; [reflexivity|]. simpl.
  pose proof (returns_for_each_length _ _ _ _ _ E) as Hlen. simpl in Hlen.
  rewrite !length_map.
  split; [exact Hlen|]. split; [exact Hlen|]. split; [exact Hlen|].
  intros i h e Hh He. rewrite lookup_map in Hh, He.
  destruct (points !! i) as [p|] eqn:Ep; simpl in Hh, He; [|discriminate].
  inversion Hh; inversion He; subst.
  destruct (Forall2_lookup_r _ _ _ _ _ HR Ep) as (x & Hx & Hp).
  apply range_lookup in Hx. subst x. exact Hp.
Qed.

Lemma performance_trends_baselines_witness :
  datetime.hours 23 <= peek_now demo_app /\
  exists trends self',
    _generate_performance_trends demo_app = (Ok trends, self') /\
    length (Trends.health_scores trends) = 24%nat.
Proof.
  split; [vm_compute; discriminate|].
  destruct (performance_trends_baselines demo_app) as (_ & t & s & E & _ & H & _).
  - vm_compute; discriminate.
  - exists t, s. auto.
Defined.

(** ** The analytics series *)

Lemma bind_ok {A B} (m : M A) (k : A -> M B) (s s' : App) (a : A) :
  m s = (Ok a, s') -> bind m k s = k a s'.
Proof. intros E. unfold bind. rewrite E. reflexivity. Qed.

Lemma hour_labels_run (now : Z) (l : list Z) (self : App) :
  datetime.hours 23 <= now <= datetime.max ->
  Forall (fun i => 0 <= i <= 23) l ->
  for_each l
    (fun i =>
       t <- lift_result (datetime_sub now (datetime.hours i)) ;;
       ret (datetime.strftime_HM t)) self =
    (Ok (map (fun i => datetime.strftime_HM (now - datetime.hours i)) l), self).
Proof.
  intros Hn Hl. induction Hl as [|i l Hi Hl IH]; [reflexivity|].
  simpl. erewrite bind_ok.
  - erewrite bind_ok; [reflexivity|exact IH].
  - erewrite bind_ok; [reflexivity|].
    unfold lift_result. rewrite datetime_sub_hours by assumption. reflexivity.
Qed.

Lemma range_23_down_bounds : Forall (fun i => 0 <= i <= 23) range_23_down.
Proof.
  unfold range_23_down. apply List.Forall_forall. intros x Hx.
  apply in_rev in Hx.
  pose proof (range_bounds 24) as H. rewrite List.Forall_forall in H.
  apply H in Hx. lia.
Qed.

Section Analytics.
Variable np_sin_2pi : Q -> Q.

(** C8.  With a clock at least 23 hours past [datetime.min],
    [get_analytics_data] returns a map with exactly the five sensor kinds,
    each with 24 labels and 24 values; it leaves the devices, the alerts
    and the dashboard cache as they were, and its result does not depend
    on them. *)
Theorem analytics_shape (self : App) :
  datetime.hours 23 <= peek_now self ->
  exists analytics self',
    get_analytics_data np_sin_2pi self = (Ok analytics, self') /\
    dom analytics =
      ({[ "temperature"; "pressure"; "vibration"; "power"; "humidity" ]} : gset string) /\
    size analytics = 5%nat /\
    (forall kind series,
        analytics !! kind = Some series ->
        length (Series.labels series) = 24%nat /\
        length (Series.values series) = 24%nat) /\
    same_store self self' /\
    (forall other : App,
        world other = world self ->
        fst (get_analytics_data np_sin_2pi other) = Ok analytics).
Proof.
  intros Hnow.
  assert (Hn : datetime.hours 23 <= peek_now self <= datetime.max).
  { split; [exact Hnow|apply peek_now_range]. }
  assert (Hrun : exists labels temperature pressure vibration power humidity self',
             get_analytics_data np_sin_2pi self =
               (Ok (list_to_map
                      [ ("temperature", Series.mk labels temperature "°C" (18, 28)%Q);
                        ("pressure", Series.mk labels pressure "hPa" (980, 1040)%Q);
                        ("vibration", Series.mk labels vibration "mm/s" (0, 0.5)%Q);
                        ("power", Series.mk labels power "W" (800, 1800)%Q);
                        ("humidity", Series.mk labels humidity "%RH" (40, 70)%Q) ]),
                self') /\
             length labels = 24%nat /\ length temperature = 24%nat /\
             length pressure = 24%nat /\ length vibration = 24%nat /\
             length power = 24%nat /\ length humidity = 24%nat).
  { unfold get_analytics_data, try_except.
    run_with datetime_now_run.
    unfold bind at 1. rewrite (hour_labels_run _ _ _ Hn range_23_down_bounds).
    cbv beta iota.
    destruct (generate_sensor_pattern_run np_sin_2pi "temperature" 22 3 0.1 (tick_clock self))
      as (t & s1 & E1 & L1).
    destruct (generate_sensor_pattern_run np_sin_2pi "pressure" 1013 20 0.05 s1)
      as (p & s2 & E2 & L2).
    destruct (generate_sensor_pattern_run np_sin_2pi "vibration" 0.25 0.1 0.2 s2)
      as (v & s3 & E3 & L3).
    destruct (generate_sensor_pattern_run np_sin_2pi "power" 1200 300 0.08 s3)
      as (pw & s4 & E4 & L4).
    destruct (generate_sensor_pattern_run np_sin_2pi "humidity" 55 15 0.12 s4)
      as (h & s5 & E5 & L5).
    rewrite (bind_ok _ _ _ _ _ E1), (bind_ok _ _ _ _ _ E2), (bind_ok _ _ _ _ _ E3),
      (bind_ok _ _ _ _ _ E4), (bind_ok _ _ _ _ _ E5).
    unfold ret. do 7 eexists. split; [reflexivity|].
    rewrite length_map. repeat split; assumption. }
  destruct Hrun as (labels & t & p & v & pw & h & s' & E & Hl & Ht & Hp & Hv & Hpw & Hh).
  do 2 eexists. split; [exact E|].
  split.
  { rewrite dom_list_to_map_L. reflexivity. }
  split.
  { reflexivity. }
  split.
  { intros kind series Hk. apply elem_of_list_to_map_2 in Hk.
    repeat (apply elem_of_cons in Hk; destruct Hk as [Hk|Hk];
            [inversion Hk; subst; simpl; auto|]).
    inversion Hk. }
  split.
  { pose proof (proj1 (env_only_get_analytics_data np_sin_2pi) self) as H.
    rewrite E in H. exact H. }
  intros other Hw.
  pose proof (proj2 (env_only_get_analytics_data np_sin_2pi) other self Hw) as [H _].
  rewrite E in H. exact H.
Qed.

End Analytics.

Lemma analytics_shape_witness :
  datetime.hours 23 <= peek_now demo_app /\
  exists analytics self',
    get_analytics_data sin_zero demo_app = (Ok analytics, self') /\
    size analytics = 5%nat.
Proof.
  split; [vm_compute; discriminate|].
  destruct (analytics_shape sin_zero demo_app) as (a & s & E & _ & H & _).
  - vm_compute; discriminate.
  - exists a, s. auto.
Defined.

(** ** The properties on concrete runs *)

Lemma init_returns (w : World) :
  fst (init w) = Ok tt -> init w = (Ok tt, snd (init w)).
Proof. destruct (init w) as [r self]. simpl. intros ->. reflexivity. Qed.


(** C6 (evaluation at a failing input).  In [demo_app] the next draw of
    the generator is below 0.1, so [get_alerts_data 0] enters
    [_add_random_alert] and raises instead of returning the empty list. *)
Theorem get_alerts_data_limit_zero_raises :
  Qltb (peek_random demo_app) 0.1 = true /\
  fst (get_alerts_data 0 demo_app) = Raise (ValueError "a must be 1-dimensional") /\
  length (sample_alerts demo_app) = 15%nat.
Proof. vm_compute. auto. Qed.

Lemma devices_stay_in_band_witness :
  reachable sin_zero demo_app /\
  Forall (fun d =>
            In (Device.status d) ["normal"; "warning"; "critical"] /\
            in_band (Device.status d) (Device.health_score d))
         (sample_devices demo_app).
Proof.
  assert (H : reachable sin_zero demo_app).
  { apply reach_init with (w := demo_world). apply init_returns.
    vm_compute. reflexivity. }
  split; [exact H|].
  exact (devices_stay_in_band sin_zero demo_app H).
Defined.

Lemma rev_range_S (n : nat) : rev (range (S n)) = Z.of_nat n :: rev (range n).
Proof.
  unfold range. rewrite seq_S, map_app, rev_app_distr. reflexivity.
Qed.

Lemma alert_at_countdown (n : nat) :
  newest_first (map alert_at (rev (range n))) /\
  Forall (fun b => Alert.timestamp b < Alert.timestamp (alert_at (Z.of_nat n)))
         (map alert_at (rev (range n))).
Proof.
  induction n as [|n [IHs IHb]].
  - split; constructor.
  - rewrite rev_range_S. cbn [map].
    assert (Hstep : Alert.timestamp (alert_at (Z.of_nat n))
                    < Alert.timestamp (alert_at (Z.of_nat (S n)))).
    { cbn [alert_at Alert.timestamp]. unfold datetime.minutes. lia. }
    split.
    + constructor; [exact IHs|].
      eapply Forall_impl; [exact IHb|]. intros b Hb. cbv beta in Hb. lia.
    + constructor; [exact Hstep|].
      eapply Forall_impl; [exact IHb|]. intros b Hb. cbv beta in Hb. lia.
Qed.

Lemma alerts_capped_witness :
  (reachable sin_zero demo_app /\ (length (sample_alerts demo_app) <= 50)%nat) /\
  length (sample_alerts full_app) = 50%nat /\
  (forall limit,
      (length (sample_alerts (snd (get_alerts_data limit full_app))) <= 50)%nat) /\
  newest_first (alert_at 50 :: sample_alerts full_app) /\
  length (sample_alerts (snd (insert_and_truncate (alert_at 50) full_app))) = 50%nat /\
  drop 50 (alert_at 50 :: sample_alerts full_app) = [alert_at 0] /\
  (forall a,
      In a (sample_alerts (snd (insert_and_truncate (alert_at 50) full_app))) ->
      Alert.timestamp (alert_at 0) <= Alert.timestamp a).
Proof.
  assert (H : reachable sin_zero demo_app).
  { apply reach_init with (w := demo_world). apply init_returns.
    vm_compute. reflexivity. }
  pose proof (alerts_capped sin_zero demo_app demo_alert) as Hd.
  cbv zeta in Hd. destruct Hd as [Hcap _].
  split; [split; [exact H|exact (Hcap H)]|].
  assert (Ea : sample_alerts full_app = map alert_at (rev (range 50))) by reflexivity.
  assert (Hlen : length (sample_alerts full_app) = 50%nat).
  { rewrite Ea. reflexivity. }
  assert (Hs : newest_first (alert_at 50 :: sample_alerts full_app)).
  { rewrite Ea. exact (proj1 (alert_at_countdown 51)). }
  assert (Hev : drop 50 (alert_at 50 :: sample_alerts full_app) = [alert_at 0]).
  { rewrite Ea. reflexivity. }
  pose proof (alerts_capped sin_zero full_app (alert_at 50)) as Hf.
  cbv zeta in Hf. destruct Hf as (_ & Hread & Hkept & _ & _ & Hold).
  split; [exact Hlen|].
  split; [apply Hread; rewrite Hlen; lia|].
  split; [exact Hs|].
  split; [rewrite Hkept, Hlen; reflexivity|].
  split; [exact Hev|].
  intros a Ha. apply (Hold Hs a (alert_at 0) Ha).
  rewrite Hev. left. reflexivity.
Defined.

Lemma alerts_newest_first_witness :
  reachable sin_zero demo_app /\
  newest_first (sample_alerts demo_app).
Proof.
  assert (H : reachable sin_zero demo_app).
  { apply reach_init with (w := demo_world). apply init_returns.
    vm_compute. reflexivity. }
  split; [exact H|].
  exact (proj1 (alerts_newest_first sin_zero demo_app demo_alert H)).
Defined.

Lemma new_alert_branch_raises_witness :
  Qltb (peek_random demo_app) 0.1 = true /\
  get_alerts_data 5 demo_app =
    (Raise (ValueError "a must be 1-dimensional"), tick_np demo_app) /\
  sample_alerts (tick_np demo_app) = sample_alerts demo_app.
Proof.
  assert (H : Qltb (peek_random demo_app) 0.1 = true) by (vm_compute; reflexivity).
  split; [exact H|].
  exact (new_alert_branch_raises 5 demo_app H).
Defined.

(** * Further properties *)

(** ** One round of device updates *)

Lemma update_device_status (d : Device.t) :
  returns (status_kept_or_redrawn d) (update_device d).
Proof.
  unfold update_device. cbv zeta.
  apply returns_bind_any; intros r.
  apply returns_bind_any; intros now.
  apply returns_bind_any; intros p.
  destruct (Qltb p 0.05).
  - eapply returns_bind; [apply returns_choice_p|].
    intros st Hst. simpl in Hst.
    destruct Hst as [<-|[<-|[<-|[]]]]; simpl;
      (eapply returns_bind; [apply returns_uniform; lra|]);
      intros h [H1 H2]; apply returns_ret; right; simpl.
    + apply in_band_normal; assumption.
    + apply in_band_warning; assumption.
    + apply in_band_critical; assumption.
  - apply returns_ret. left. split; reflexivity.
Qed.

Lemma update_device_effect (d : Device.t) (self : App) :
  exists d' self',
    update_device d self = (Ok d', self') /\ updated d d' /\ same_store self self'.
Proof.
  destruct (update_device_run d self) as (d' & s' & E & Hj & _ & _ & Hs).
  exists d', s'. split; [exact E|]. split; [|exact Hs].
  split; [exact Hj|]. eapply update_device_status. exact E.
Qed.

Lemma update_loop_effect (l : list Device.t) :
  forall self, exists l' self',
    for_each l update_device self = (Ok l', self') /\
    Forall2 updated l l' /\ same_store self self'.
Proof.
  induction l as [|d l IH]; intros self.
  - exists [], self. split; [reflexivity|]. split; [constructor|apply same_store_refl].
  - destruct (update_device_effect d self) as (d' & s1 & E1 & Hu & Hs1).
    destruct (IH s1) as (l' & s2 & E2 & Hus & Hs2).
    exists (d' :: l'), s2. simpl.
    rewrite (bind_ok _ _ _ _ _ E1), (bind_ok _ _ _ _ _ E2).
    split; [reflexivity|]. split; [constructor; assumption|].
    eapply same_store_trans; eassumption.
Qed.

Lemma update_device_values_run (self : App) :
  exists l' self1,
    _update_device_values self = (Ok tt, set_sample_devices l' self1) /\
    Forall2 updated (sample_devices self) l' /\
    same_store self self1.
Proof.
  destruct (update_loop_effect (sample_devices self) self) as (l' & s1 & E & Hu & Hs).
  exists l', s1. split; [|split; assumption].
  unfold _update_device_values.
  unfold bind at 1. unfold gets at 1. cbv beta iota.
  rewrite (bind_ok _ _ _ _ _ E). reflexivity.
Qed.

Lemma devices_are_store_based l : store_based (devices_are l).
Proof. intros s s' (_&_&_&H&_) Hs. unfold devices_are. rewrite H. exact Hs. Qed.
#[export] Hint Resolve devices_are_store_based : preserves.

Lemma devices_are_set_data_cache l c s : devices_are l s -> devices_are l (set_data_cache c s).
Proof. auto. Qed.
Lemma devices_are_set_last_cache_update l d s :
  devices_are l s -> devices_are l (set_last_cache_update d s).
Proof. auto. Qed.
Lemma devices_are_set_sample_alerts l al s :
  devices_are l s -> devices_are l (set_sample_alerts al s).
Proof. auto. Qed.
#[export] Hint Resolve devices_are_set_data_cache devices_are_set_last_cache_update
  devices_are_set_sample_alerts : preserves.

Section DeviceSteps.
Variable np_sin_2pi : Q -> Q.

Lemma get_devices_data_step (self : App) :
  Forall2 updated (sample_devices self) (sample_devices (snd (get_devices_data self))).
Proof.
  destruct (update_device_values_run self) as (l' & s1 & E & Hu & _).
  unfold get_devices_data. rewrite (bind_ok _ _ _ _ _ E). exact Hu.
Qed.

Lemma fetch_dashboard_data_step (self : App) :
  Forall2 updated (sample_devices self)
          (sample_devices (snd (_fetch_dashboard_data np_sin_2pi self))).
Proof.
  destruct (update_device_values_run self) as (l' & s1 & E & Hu & _).
  unfold _fetch_dashboard_data, try_except, fetch_dashboard_body.
  rewrite (bind_ok _ _ _ _ _ E).
  match goal with
  | |- context [match ?m ?s with _ => _ end] =>
      assert (Hk : preserves (devices_are l') m) by (cbv zeta; preserves_tac);
      specialize (Hk s eq_refl); destruct (m s) as [[p|e] s2]
  end; simpl in *.
  - unfold devices_are in Hk. rewrite Hk. exact Hu.
  - unfold devices_are in Hk. rewrite Hk. exact Hu.
Qed.

Lemma get_alerts_data_keeps_devices l limit :
  preserves (devices_are l) (get_alerts_data limit).
Proof.
  unfold get_alerts_data. preserves_tac.
  intros s Hs. rewrite add_random_alert_raises. exact Hs.
Qed.

Lemma get_analytics_data_keeps_devices l :
  preserves (devices_are l) (get_analytics_data np_sin_2pi).
Proof. preserves_tac. Qed.

Lemma get_system_status_keeps_devices l : preserves (devices_are l) get_system_status.
Proof. unfold get_system_status. preserves_tac. Qed.

Lemma get_dashboard_data_step (self : App) :
  sample_devices (snd (get_dashboard_data np_sin_2pi self)) = sample_devices self \/
  Forall2 updated (sample_devices self)
          (sample_devices (snd (get_dashboard_data np_sin_2pi self))).
Proof.
  rewrite get_dashboard_data_policy.
  destruct (fresh_inclusive self).
  - left. unfold reuse. destruct (data_cache self !! "dashboard"); reflexivity.
  - right. unfold recompute.
    pose proof (fetch_dashboard_data_step (tick_clock self)) as H.
    destruct (_fetch_dashboard_data np_sin_2pi (tick_clock self)) as [[p|e] s1]; exact H.
Qed.

(** A property of the device list that [__init__] establishes and that
    a round of updates keeps holds in every reachable state. *)
Lemma reachable_devices_invariant (Q : list Device.t -> Prop) :
  (forall w self, init w = (Ok tt, self) -> Q (sample_devices self)) ->
  (forall l l', Forall2 updated l l' -> Q l -> Q l') ->
  forall self, reachable np_sin_2pi self -> Q (sample_devices self).
Proof.
  intros Hinit Hstep self Hr.
  induction Hr as [w self E|self _ IH|self _ IH|self limit _ IH|self _ IH|self _ IH].
  - eapply Hinit, E.
  - destruct (get_dashboard_data_step self) as [->|H]; [exact IH|].
    eapply Hstep; eassumption.
  - eapply Hstep; [apply get_devices_data_step|exact IH].
  - rewrite (get_alerts_data_keeps_devices (sample_devices self) limit self eq_refl). exact IH.
  - rewrite (get_analytics_data_keeps_devices (sample_devices self) self eq_refl). exact IH.
  - rewrite (get_system_status_keeps_devices (sample_devices self) self eq_refl). exact IH.
Qed.

End DeviceSteps.

(** ** Devices: identity and shape *)

Lemma returns_for_each_Forall2 {A B} (R : A -> B -> Prop) (l : list A) (body : A -> M B) :
  (forall x, returns (R x) (body x)) -> returns (Forall2 R l) (for_each l body).
Proof.
  intros Hb. induction l as [|x l IH]; simpl.
  - apply returns_ret. constructor.
  - apply returns_bind with (R := R x); [apply Hb|]. intros y Hy.
    apply returns_bind with (R := Forall2 R l); [exact IH|]. intros ys Hys.
    apply returns_ret. constructor; assumption.
Qed.

Lemma returns_and {A} (P Q : A -> Prop) (m : M A) :
  returns P m -> returns Q m -> returns (fun a => P a /\ Q a) m.
Proof. intros HP HQ s a s' E. split; [eapply HP|eapply HQ]; exact E. Qed.

Lemma returns_choice (a : list string) : returns (fun x => In x a) (np.random.choice a).
Proof.
  unfold np.random.choice. simpl.
  destruct a as [|x a]; [apply returns_raise|].
  apply returns_bind_any. intros idx. apply returns_ret.
  destruct (nth_in_or_default (Z.to_nat idx) (x :: a) x) as [H|H];
    [exact H|rewrite H; left; reflexivity].
Qed.

Lemma generate_device_id (i : Z) :
  returns (fun d => Device.device_id d = "DEVICE_" +:+ fmt_03d (Z.to_nat (i + 1)))
          (generate_device i).
Proof.
  unfold generate_device.
  repeat (apply returns_bind_any; intro).
  apply returns_ret. reflexivity.
Qed.

Lemma Forall2_map_eq {A B C} (f : B -> C) (g : A -> C) (l : list A) (l' : list B) :
  Forall2 (fun x y => f y = g x) l l' -> map f l' = map g l.
Proof. induction 1; simpl; congruence. Qed.

Lemma init_devices (P : list Device.t -> Prop) w self :
  returns P generate_sample_devices ->
  init w = (Ok tt, self) -> P (sample_devices self).
Proof.
  intros HP. unfold init, initialize_sample_data, bind, modify. intros E.
  destruct (generate_sample_devices _) as [[ds|e] s1] eqn:E1; [|inversion E].
  destruct (generate_sample_alerts _) as [[al|e] s2] eqn:E2; inversion E; subst; clear E.
  assert (H : env_only generate_sample_alerts).
  { unfold generate_sample_alerts. env_only_tac. }
  destruct H as [H _]. specialize (H (set_sample_devices ds s1)). rewrite E2 in H.
  destruct H as (_&_&_&H&_). simpl in *. rewrite H.
  eapply HP. exact E1.
Qed.

Lemma generate_sample_devices_ids :
  returns (fun l => map Device.device_id l = device_ids) generate_sample_devices.
Proof.
  intros s l s' E. unfold device_ids.
  apply (Forall2_map_eq Device.device_id
           (fun i => "DEVICE_" +:+ fmt_03d (Z.to_nat (i + 1)))).
  eapply (returns_for_each_Forall2
            (fun i d => Device.device_id d = "DEVICE_" +:+ fmt_03d (Z.to_nat (i + 1))));
    [apply generate_device_id|exact E].
Qed.

Lemma updated_keeps_ids l l' :
  Forall2 updated l l' -> map Device.device_id l' = map Device.device_id l.
Proof.
  induction 1 as [|d d' l l' [Hj _] _ IH]; simpl; [reflexivity|].
  destruct Hj as (_ & _ & Hid & _). congruence.
Qed.

Lemma device_ids_distinct : NoDup device_ids /\ length device_ids = 20%nat.
Proof.
  split; [|reflexivity].
  apply NoDup_ListNoDup. vm_compute.
  repeat (constructor; [intros H; simpl in H; intuition discriminate|]).
  constructor.
Qed.

Lemma py_round_hundredths_bounds (a b : Z) (lo hi x : Q) :
  (lo == Qmake a 100)%Q -> (hi == Qmake b 100)%Q ->
  (lo <= x)%Q -> (x <= hi)%Q ->
  (lo <= py_round x 2)%Q /\ (py_round x 2 <= hi)%Q.
Proof.
  intros Hlo Hhi H1 H2.
  destruct (round_half_even_bounds a b (x * inject_Z 100)) as [Ha Hb].
  - rewrite Hlo in H1. unfold Qle in *; simpl in *. lia.
  - rewrite Hhi in H2. unfold Qle in *; simpl in *. lia.
  - rewrite Hlo, Hhi. unfold py_round.
    change (pow10 2) with 100%positive. unfold Qle; simpl. lia.
Qed.

Lemma generate_device_shape (i : Z) :
  returns (fun d => device_well_formed d /\ value_in_range d) (generate_device i).
Proof.
  unfold generate_device.
  eapply returns_bind; [apply returns_choice|]. intros device_type Hty.
  apply returns_bind_any; intros status_rand.
  apply returns_bind_any; intros sh.
  apply returns_bind with
    (R := fun vu => snd vu = unit_for device_type /\
                    (fst (value_range_for device_type) <= py_round (fst vu) 2)%Q /\
                    (py_round (fst vu) 2 <= snd (value_range_for device_type))%Q).
  { simpl in Hty.
    destruct Hty as [<-|[<-|[<-|[<-|[<-|[]]]]]]; simpl;
      (eapply returns_bind; [apply returns_uniform; lra|]);
      intros v [H1 H2]; apply returns_ret; (split; [reflexivity|]); simpl.
    - apply (py_round_hundredths_bounds 1800 3500); [reflexivity..|assumption|assumption].
    - apply (py_round_hundredths_bounds 90000 110000); [reflexivity..|assumption|assumption].
    - apply (py_round_hundredths_bounds 10 50); [reflexivity..|assumption|assumption].
    - apply (py_round_hundredths_bounds 3500 7500); [reflexivity..|assumption|assumption].
    - apply (py_round_hundredths_bounds 1000 5000); [reflexivity..|assumption|assumption]. }
  intros vu (Hu & Hv1 & Hv2).
  eapply returns_bind; [apply returns_choice|]. intros location Hloc.
  eapply returns_bind; [apply returns_uniform; lra|]. intros eff [He1 He2].
  repeat (apply returns_bind_any; intro).
  apply returns_ret. unfold device_well_formed, value_in_range. simpl.
  repeat split; try assumption.
  - eapply Qle_trans; [|exact Hv1].
    simpl in Hty. destruct Hty as [<-|[<-|[<-|[<-|[<-|[]]]]]]; simpl; lra.
  - eexists. reflexivity.
Qed.

Lemma updated_keeps_shape (d d' : Device.t) :
  updated d d' -> device_well_formed d -> device_well_formed d'.
Proof.
  intros [Hj _] (Hty & Hloc & Hu & _ & _ & He1 & He2).
  destruct Hj as ((r & _ & _ & Hv) & Hv0 & _ & _ & Ety & Eloc & Eu & Ee & _).
  unfold device_well_formed. rewrite Ety, Eloc, Eu, Ee.
  repeat split; try assumption.
  rewrite Hv. eexists. reflexivity.
Qed.

Lemma round_half_even_error (x : Q) :
  (inject_Z (round_half_even x) - x <= 1 # 2)%Q /\
  (x - inject_Z (round_half_even x) <= 1 # 2)%Q.
Proof.
  pose proof (Qfloor_le x) as Hl. pose proof (Qlt_floor x) as Hu.
  rewrite inject_Z_plus in Hu. change (inject_Z 1) with 1%Q in Hu.
  unfold round_half_even. cbv zeta.
  destruct (Qcompare_spec (x - inject_Z (Qfloor x)) (1 # 2)) as [He|Hlt|Hgt].
  - destruct (Z.even (Qfloor x)).
    + split; lra.
    + rewrite inject_Z_plus. change (inject_Z 1) with 1%Q. split; lra.
  - split; lra.
  - rewrite inject_Z_plus. change (inject_Z 1) with 1%Q. split; lra.
Qed.

Lemma py_round_2_error (x : Q) :
  (py_round x 2 - x <= 0.005)%Q /\ (x - py_round x 2 <= 0.005)%Q.
Proof.
  destruct (round_half_even_error (x * inject_Z 100)) as [H1 H2].
  unfold py_round. change (pow10 2) with 100%positive.
  set (k := round_half_even (x * inject_Z (Z.pos 100))) in *.
  assert (Hk : (Qmake k 100 == inject_Z k * (1 # 100))%Q) by apply Qmake_Qdiv.
  rewrite Hk. change (inject_Z (Z.pos 100)) with 100%Q in *.
  split; lra.
Qed.

Lemma jittered_within_ten_percent (d d' : Device.t) :
  jittered d d' -> (0 <= Device.value d)%Q ->
  (0.9 * Device.value d - 0.005 <= Device.value d')%Q /\
  (Device.value d' <= 1.1 * Device.value d + 0.005)%Q.
Proof.
  intros ((r & Hr1 & Hr2 & Hv) & _) Hv0. rewrite Hv.
  set (v := Device.value d) in *.
  assert (Hx : (0.9 * v <= v + r * v /\ v + r * v <= 1.1 * v)%Q) by (split; nra).
  assert (Hm : (py_max 0 (v + r * v) == v + r * v)%Q).
  { unfold py_max. destruct (Qltb 0 (v + r * v)) eqn:E; [reflexivity|].
    apply Qltb_false in E. lra. }
  destruct (py_round_2_error (py_max 0 (v + r * v))) as [E1 E2].
  split; lra.
Qed.

(** ** Devices in every reachable state *)

Section DeviceProperties.
Variable np_sin_2pi : Q -> Q.

Lemma generate_sample_devices_shape :
  returns (Forall (fun d => device_well_formed d /\ value_in_range d))
          generate_sample_devices.
Proof.
  unfold generate_sample_devices.
  apply returns_for_each with (P := fun _ => True).
  - intros i _. apply generate_device_shape.
  - apply Forall_forall. auto.
Qed.

Lemma reachable_devices_well_formed (self : App) :
  reachable np_sin_2pi self -> Forall device_well_formed (sample_devices self).
Proof.
  revert self.
  apply (reachable_devices_invariant np_sin_2pi (Forall device_well_formed)).
  - intros w self E.
    pose proof (init_devices _ w self generate_sample_devices_shape E) as H.
    eapply Forall_impl; [exact H|]. intros d Hd. apply Hd.
  - intros l l' Hu Hl. induction Hu as [|d d' l l' Hd _ IH]; [constructor|].
    inversion Hl; subst. constructor; [eapply updated_keeps_shape; eassumption|auto].
Qed.

Lemma reachable_device_ids (self : App) :
  reachable np_sin_2pi self ->
  map Device.device_id (sample_devices self) = device_ids.
Proof.
  revert self.
  apply (reachable_devices_invariant np_sin_2pi
           (fun l => map Device.device_id l = device_ids)).
  - intros w self. apply (init_devices (fun l => map Device.device_id l = device_ids)).
    exact generate_sample_devices_ids.
  - intros l l' Hu Hl. rewrite (updated_keeps_ids _ _ Hu). exact Hl.
Qed.

(** X1.  In every reachable state there are exactly twenty devices and
    their identifiers are [DEVICE_001] to [DEVICE_020], in this order and
    hence pairwise distinct: no method adds, removes, reorders or renames
    a device. *)
Theorem device_ids_fixed (self : App) :
  reachable np_sin_2pi self ->
  map Device.device_id (sample_devices self) = device_ids /\
  NoDup (map Device.device_id (sample_devices self)) /\
  length (sample_devices self) = 20%nat.
Proof.
  intros Hr. pose proof (reachable_device_ids self Hr) as H.
  split; [exact H|]. destruct device_ids_distinct as [Hnd Hlen].
  split; [rewrite H; exact Hnd|].
  rewrite <- (length_map Device.device_id), H. exact Hlen.
Qed.

(** X2.  In every reachable state each device has one of the five device
    types and one of the six locations, the unit that belongs to its
    type, a non-negative value with two decimals, and an efficiency score
    in [0.7, 1.0]. *)
Theorem devices_well_formed_always (self : App) :
  reachable np_sin_2pi self ->
  Forall device_well_formed (sample_devices self).
Proof. apply reachable_devices_well_formed. Qed.

(** X3.  A device read on a reachable application returns, and moves
    every value to within ten percent of what it was, up to the 0.005
    that rounding to two decimals can add. *)
Theorem jitter_within_ten_percent (self : App) :
  reachable np_sin_2pi self ->
  exists self',
    get_devices_data self = (Ok (sample_devices self'), self') /\
    Forall2 within_ten_percent (sample_devices self) (sample_devices self').
Proof.
  intros Hr.
  pose proof (reachable_devices_well_formed self Hr) as Hwf.
  destruct (update_device_values_run self) as (l' & s1 & E & Hu & _).
  exists (set_sample_devices l' s1).
  unfold get_devices_data. rewrite (bind_ok _ _ _ _ _ E).
  split; [reflexivity|]. simpl.
  clear E. induction Hu as [|d d' l l' [Hj _] _ IH]; [constructor|].
  inversion Hwf; subst. constructor; [|auto].
  apply jittered_within_ten_percent; [exact Hj|].
  match goal with H : device_well_formed d |- _ => destruct H as (_&_&_&H0&_) end.
  exact H0.
Qed.

(** X4.  A device read changes the devices and the environment only: the
    alerts, the dashboard cache, its time stamp and the TTL are as
    before; and each device either keeps its status and health score or
    has a newly drawn status with a health score in its band. *)
Theorem get_devices_data_effect (self : App) :
  let self' := snd (get_devices_data self) in
  sample_alerts self' = sample_alerts self /\
  data_cache self' = data_cache self /\
  last_cache_update self' = last_cache_update self /\
  cache_ttl self' = cache_ttl self /\
  Forall2 status_kept_or_redrawn (sample_devices self) (sample_devices self').
Proof.
  destruct (update_device_values_run self) as (l' & s1 & E & Hu & Hs).
  unfold get_devices_data. rewrite (bind_ok _ _ _ _ _ E). simpl.
  destruct Hs as (Hc & Hl & Ht & _ & Ha).
  repeat split; try assumption.
  clear E. induction Hu as [|d d' l l' [_ Hd] _ IH]; constructor; assumption.
Qed.

(** X5.  A device read does not invalidate the dashboard cache: a
    dashboard read that follows it within the TTL of the cached entry
    still returns the payload cached before, although the devices have
    changed. *)
Theorem device_read_keeps_cached_dashboard (self : App) (cached : Dashboard.t) :
  data_cache self !! "dashboard" = Some cached ->
  peek_now (snd (get_devices_data self)) - last_cache_update self <= cache_ttl self ->
  get_dashboard_data np_sin_2pi (snd (get_devices_data self)) =
    (Ok cached, tick_clock (snd (get_devices_data self))).
Proof.
  intros Hc Hage.
  destruct (update_device_values_run self) as (l' & s1 & E & _ & Hs).
  revert Hage. unfold get_devices_data. rewrite (bind_ok _ _ _ _ _ E). simpl.
  destruct Hs as (Ec & El & Et & _ & _).
  set (s' := set_sample_devices l' s1). intros Hage.
  rewrite get_dashboard_data_policy.
  assert (Hf : fresh_inclusive s' = true).
  { unfold fresh_inclusive. simpl. rewrite El, Et, Ec, Hc.
    apply andb_true_iff. split; [apply Z.leb_le; exact Hage|].
    apply bool_decide_eq_true. eauto. }
  rewrite Hf. unfold reuse. simpl. rewrite Ec, Hc. reflexivity.
Qed.

End DeviceProperties.

(** X6.  Right after [__init__] the value of every device lies in the
    interval of its type: [18, 35] for a temperature sensor, [900, 1100]
    for a pressure sensor, [0.1, 0.5] for a vibration sensor, [35, 75]
    for a humidity sensor and [10, 50] for a flow meter. *)
Theorem initial_values_in_range (w : World) (self : App) :
  init w = (Ok tt, self) ->
  Forall value_in_range (sample_devices self).
Proof.
  intros E.
  pose proof (init_devices _ w self generate_sample_devices_shape E) as H.
  eapply Forall_impl; [exact H|]. intros d Hd. apply Hd.
Qed.

Lemma device_ids_fixed_witness :
  reachable sin_zero demo_app /\ length (sample_devices demo_app) = 20%nat.
Proof.
  assert (H : reachable sin_zero demo_app).
  { apply reach_init with (w := demo_world). apply init_returns.
    vm_compute. reflexivity. }
  split; [exact H|].
  exact (proj2 (proj2 (device_ids_fixed sin_zero demo_app H))).
Defined.

Lemma devices_well_formed_always_witness :
  reachable sin_zero demo_app /\ Forall device_well_formed (sample_devices demo_app).
Proof.
  assert (H : reachable sin_zero demo_app).
  { apply reach_init with (w := demo_world). apply init_returns.
    vm_compute. reflexivity. }
  split; [exact H|].
  exact (devices_well_formed_always sin_zero demo_app H).
Defined.

Lemma initial_values_in_range_witness :
  init demo_world = (Ok tt, demo_app) /\ Forall value_in_range (sample_devices demo_app).
Proof.
  assert (H : init demo_world = (Ok tt, demo_app)).
  { apply init_returns. vm_compute. reflexivity. }
  split; [exact H|].
  exact (initial_values_in_range demo_world demo_app H).
Defined.

Lemma jitter_within_ten_percent_witness :
  reachable sin_zero demo_app /\
  exists self',
    get_devices_data demo_app = (Ok (sample_devices self'), self') /\
    Forall2 within_ten_percent (sample_devices demo_app) (sample_devices self').
Proof.
  assert (H : reachable sin_zero demo_app).
  { apply reach_init with (w := demo_world). apply init_returns.
    vm_compute. reflexivity. }
  split; [exact H|].
  exact (jitter_within_ten_percent sin_zero demo_app H).
Defined.

Lemma device_read_keeps_cached_dashboard_witness :
  is_Some (data_cache ttl_app !! "dashboard") /\
  peek_now (snd (get_devices_data ttl_app)) - last_cache_update ttl_app <= cache_ttl ttl_app /\
  fst (get_dashboard_data sin_zero (snd (get_devices_data ttl_app))) =
    fst (get_dashboard_data sin_zero ttl_app).
Proof.
  destruct (data_cache ttl_app !! "dashboard") as [cached|] eqn:Hc;
    [|exfalso; revert Hc; vm_compute; discriminate].
  assert (Hage : peek_now (snd (get_devices_data ttl_app)) - last_cache_update ttl_app
                 <= cache_ttl ttl_app) by (vm_compute; discriminate).
  split; [eauto|]. split; [exact Hage|].
  rewrite (device_read_keeps_cached_dashboard sin_zero ttl_app cached Hc Hage).
  rewrite get_dashboard_data_policy.
  replace (fresh_inclusive ttl_app) with true by (vm_compute; reflexivity).
  unfold reuse. rewrite Hc. reflexivity.
Defined.

(** ** The dashboard cache in every reachable state *)

Lemma cache_is_store_based c l t : store_based (cache_is c l t).
Proof.
  intros s s' (H1&H2&H3&_&_) (E1&E2&E3). unfold cache_is.
  rewrite H1, H2, H3. auto.
Qed.
#[export] Hint Resolve cache_is_store_based : preserves.

Lemma cache_is_set_sample_devices c l t ds s :
  cache_is c l t s -> cache_is c l t (set_sample_devices ds s).
Proof. auto. Qed.
Lemma cache_is_set_sample_alerts c l t al s :
  cache_is c l t s -> cache_is c l t (set_sample_alerts al s).
Proof. auto. Qed.
#[export] Hint Resolve cache_is_set_sample_devices cache_is_set_sample_alerts : preserves.

Section CacheProperties.
Variable np_sin_2pi : Q -> Q.

Lemma fetch_keeps_cache c l t :
  preserves (cache_is c l t) (_fetch_dashboard_data np_sin_2pi).
Proof.
  unfold _fetch_dashboard_data, fetch_dashboard_body, _update_device_values.
  cbv zeta. preserves_tac.
Qed.

Lemma get_devices_data_keeps_cache c l t : preserves (cache_is c l t) get_devices_data.
Proof. unfold get_devices_data, _update_device_values. preserves_tac. Qed.

Lemma get_alerts_data_keeps_cache c l t limit :
  preserves (cache_is c l t) (get_alerts_data limit).
Proof.
  unfold get_alerts_data. preserves_tac.
  intros s Hs. rewrite add_random_alert_raises. exact Hs.
Qed.

Lemma get_analytics_data_keeps_cache c l t :
  preserves (cache_is c l t) (get_analytics_data np_sin_2pi).
Proof. preserves_tac. Qed.

Lemma get_system_status_keeps_cache c l t : preserves (cache_is c l t) get_system_status.
Proof. unfold get_system_status. preserves_tac. Qed.

Lemma cache_is_self (self : App) :
  cache_is (data_cache self) (last_cache_update self) (cache_ttl self) self.
Proof. repeat split. Qed.

Lemma cache_well_formed_of_cache_is (self self' : App) :
  cache_is (data_cache self) (last_cache_update self) (cache_ttl self) self' ->
  cache_well_formed self -> cache_well_formed self'.
Proof. intros (E1 & E2 & E3). unfold cache_well_formed. rewrite E1, E2, E3. auto. Qed.

Lemma init_cache w self :
  init w = (Ok tt, self) ->
  data_cache self = ∅ /\ last_cache_update self = datetime.min /\
  cache_ttl self = datetime.minutes 2.
Proof.
  intros E.
  assert (H : preserves (cache_is ∅ datetime.min (datetime.minutes 2)) initialize_sample_data).
  { unfold initialize_sample_data, generate_sample_devices, generate_sample_alerts.
    preserves_tac. }
  specialize (H (mkApp ∅ datetime.min (datetime.minutes 2) [] [] w)).
  unfold init in E. rewrite E in H. apply H. repeat split.
Qed.

Lemma get_dashboard_data_cache (self : App) :
  cache_well_formed self ->
  cache_well_formed (snd (get_dashboard_data np_sin_2pi self)).
Proof.
  intros Hwf. rewrite get_dashboard_data_policy.
  destruct (fresh_inclusive self).
  - unfold reuse. destruct (data_cache self !! "dashboard"); exact Hwf.
  - unfold recompute.
    pose proof (fetch_keeps_cache _ _ _ (tick_clock self) (cache_is_self (tick_clock self)))
      as (E1 & E2 & E3).
    destruct (fetch_dashboard_data_returns np_sin_2pi (tick_clock self)) as (p & s1 & E).
    rewrite E in *. simpl in *.
    destruct Hwf as (Ht & Hk & _). unfold cache_well_formed. simpl.
    split; [congruence|]. split.
    + intros key [v Hv]. destruct (decide (key = "dashboard")) as [->|Hne]; [reflexivity|].
      rewrite lookup_insert_ne in Hv by congruence.
      apply Hk. rewrite <- E1. eauto.
    + rewrite lookup_insert_eq. discriminate.
Qed.

(** X7.  In every reachable state the TTL is two minutes, the cache holds
    no key other than ['dashboard'], and as long as nothing is cached the
    time of the last update is [datetime.min]. *)
Theorem cache_well_formed_always (self : App) :
  reachable np_sin_2pi self -> cache_well_formed self.
Proof.
  induction 1 as [w self E|self _ IH|self _ IH|self limit _ IH|self _ IH|self _ IH].
  - destruct (init_cache w self E) as (Ec & El & Et).
    unfold cache_well_formed. rewrite Ec, El, Et.
    split; [reflexivity|]. split; [|reflexivity].
    intros key [v Hv]. rewrite lookup_empty in Hv. discriminate.
  - apply get_dashboard_data_cache, IH.
  - eapply cache_well_formed_of_cache_is; [|exact IH].
    apply get_devices_data_keeps_cache, cache_is_self.
  - eapply cache_well_formed_of_cache_is; [|exact IH].
    apply get_alerts_data_keeps_cache, cache_is_self.
  - eapply cache_well_formed_of_cache_is; [|exact IH].
    apply get_analytics_data_keeps_cache, cache_is_self.
  - eapply cache_well_formed_of_cache_is; [|exact IH].
    apply get_system_status_keeps_cache, cache_is_self.
Qed.

(** X8.  The first dashboard read of a newly constructed application
    finds the cache empty and runs the aggregate computation, whatever the
    clock reads. *)
Theorem first_dashboard_read_recomputes (w : World) (self : App) :
  init w = (Ok tt, self) ->
  data_cache self = ∅ /\
  get_dashboard_data np_sin_2pi self = recompute np_sin_2pi self.
Proof.
  intros E. destruct (init_cache w self E) as (Ec & _ & _).
  split; [exact Ec|].
  rewrite get_dashboard_data_policy.
  unfold fresh_inclusive. rewrite Ec, lookup_empty.
  rewrite andb_false_r. reflexivity.
Qed.

(** X9.  A dashboard read never raises: it returns a payload, that
    payload is the cache entry afterwards, and a second read made while
    the entry's age does not exceed the TTL returns the same payload and
    touches nothing but the clock. *)
Theorem dashboard_read_returns_and_repeats (self : App) :
  exists payload self1,
    get_dashboard_data np_sin_2pi self = (Ok payload, self1) /\
    data_cache self1 !! "dashboard" = Some payload /\
    (peek_now self1 - last_cache_update self1 <= cache_ttl self1 ->
     get_dashboard_data np_sin_2pi self1 = (Ok payload, tick_clock self1)).
Proof.
  assert (Hrun : exists payload self1,
             get_dashboard_data np_sin_2pi self = (Ok payload, self1) /\
             data_cache self1 !! "dashboard" = Some payload).
  { rewrite get_dashboard_data_policy.
    destruct (fresh_inclusive self) eqn:Hf.
    - unfold fresh_inclusive in Hf. apply andb_true_iff in Hf. destruct Hf as [_ Hc].
      apply bool_decide_eq_true in Hc. destruct Hc as [p Hp].
      exists p, (tick_clock self). unfold reuse. rewrite Hp. auto.
    - destruct (fetch_dashboard_data_returns np_sin_2pi (tick_clock self)) as (p & s1 & E).
      unfold recompute. rewrite E. do 2 eexists. split; [reflexivity|].
      simpl. apply lookup_insert_eq. }
  destruct Hrun as (p & s1 & E & Hc). exists p, s1.
  split; [exact E|]. split; [exact Hc|]. intros Hage.
  rewrite get_dashboard_data_policy.
  assert (Hf : fresh_inclusive s1 = true).
  { unfold fresh_inclusive. rewrite Hc. apply andb_true_iff.
    split; [apply Z.leb_le; exact Hage|]. apply bool_decide_eq_true. eauto. }
  rewrite Hf. unfold reuse. rewrite Hc. reflexivity.
Qed.

(** X10.  A dashboard read on a fresh cache leaves the devices as they
    are; on a stale or empty cache it runs exactly one round of device
    updates.  In both cases the alerts are untouched. *)
Theorem dashboard_read_updates_devices_once (self : App) :
  let self' := snd (get_dashboard_data np_sin_2pi self) in
  sample_alerts self' = sample_alerts self /\
  (if fresh_inclusive self
   then sample_devices self' = sample_devices self
   else Forall2 updated (sample_devices self) (sample_devices self')).
Proof.
  cbv zeta. split.
  { apply (get_dashboard_data_keeps_alerts np_sin_2pi (sample_alerts self) self eq_refl). }
  rewrite get_dashboard_data_policy.
  destruct (fresh_inclusive self).
  - unfold reuse. destruct (data_cache self !! "dashboard"); reflexivity.
  - unfold recompute.
    pose proof (fetch_dashboard_data_step np_sin_2pi (tick_clock self)) as H.
    destruct (_fetch_dashboard_data np_sin_2pi (tick_clock self)) as [[p|e] s1]; exact H.
Qed.

End CacheProperties.

Lemma cache_well_formed_always_witness :
  reachable sin_zero ttl_app /\ cache_well_formed ttl_app.
Proof.
  assert (H : reachable sin_zero ttl_app).
  { unfold ttl_app. apply reach_dashboard.
    apply reach_init with (w := ttl_world). apply init_returns.
    vm_compute. reflexivity. }
  split; [exact H|].
  exact (cache_well_formed_always sin_zero ttl_app H).
Defined.

Lemma first_dashboard_read_recomputes_witness :
  init demo_world = (Ok tt, demo_app) /\
  get_dashboard_data sin_zero demo_app = recompute sin_zero demo_app.
Proof.
  assert (H : init demo_world = (Ok tt, demo_app)).
  { apply init_returns. vm_compute. reflexivity. }
  split; [exact H|].
  exact (proj2 (first_dashboard_read_recomputes sin_zero demo_world demo_app H)).
Defined.

Lemma dashboard_read_returns_and_repeats_witness :
  exists payload self1,
    get_dashboard_data sin_zero demo_app = (Ok payload, self1) /\
    peek_now self1 - last_cache_update self1 <= cache_ttl self1 /\
    get_dashboard_data sin_zero self1 = (Ok payload, tick_clock self1).
Proof.
  destruct (dashboard_read_returns_and_repeats sin_zero demo_app)
    as (p & s1 & E & Hc & Hrep).
  exists p, s1. split; [exact E|].
  assert (Hs : s1 = snd (get_dashboard_data sin_zero demo_app))
    by (rewrite E; reflexivity).
  assert (Hage : peek_now s1 - last_cache_update s1 <= cache_ttl s1).
  { rewrite Hs. vm_compute. discriminate. }
  split; [exact Hage|exact (Hrep Hage)].
Defined.

(** ** The dashboard snapshot *)

Lemma count_status_partition (l : list Device.t) :
  Forall device_ok l ->
  (count_status "normal" l + count_status "warning" l + count_status "critical" l
   = length l)%nat.
Proof.
  unfold count_status.
  induction 1 as [|d l Hd _ IH]; [reflexivity|].
  simpl. destruct Hd as [[-> _]|[[-> _]|[-> _]]]; simpl; lia.
Qed.

Lemma py_sum_bounds (a b : Q) (l : list Q) :
  Forall (fun x => a <= x /\ x <= b)%Q l ->
  (a * inject_Z (Z.of_nat (length l)) <= py_sum l)%Q /\
  (py_sum l <= b * inject_Z (Z.of_nat (length l)))%Q.
Proof.
  induction 1 as [|x l [Hx1 Hx2] _ [IH1 IH2]].
  - change (inject_Z (Z.of_nat (length (@nil Q)))) with 0%Q.
    change (py_sum []) with 0%Q. split; lra.
  - change (length (x :: l)) with (S (length l)).
    rewrite Nat2Z.inj_succ. unfold Z.succ. rewrite inject_Z_plus.
    change (inject_Z 1) with 1%Q. simpl py_sum.
    set (n := inject_Z (Z.of_nat (length l))) in *. split; nra.
Qed.

Lemma np_mean_bounds (a b : Q) (l : list Q) :
  l <> [] ->
  Forall (fun x => a <= x /\ x <= b)%Q l ->
  (a <= np_mean l)%Q /\ (np_mean l <= b)%Q.
Proof.
  intros Hne Hl. destruct (py_sum_bounds a b l Hl) as [H1 H2].
  assert (Hn : (0 < inject_Z (Z.of_nat (length l)))%Q).
  { rewrite <- (Zlt_Qlt 0). destruct l; [congruence|simpl; lia]. }
  unfold np_mean. split.
  - apply Qle_shift_div_l; assumption.
  - apply Qle_shift_div_r; assumption.
Qed.

Lemma performance_trends_lengths :
  returns (fun t => length (Trends.labels t) = 24%nat /\
                    length (Trends.health_scores t) = 24%nat /\
                    length (Trends.efficiency_scores t) = 24%nat)
          _generate_performance_trends.
Proof.
  unfold _generate_performance_trends.
  apply returns_bind_any; intros now.
  eapply returns_bind; [apply returns_for_each_length|].
  intros points Hlen. apply returns_ret. simpl.
  rewrite !length_map. auto.
Qed.

Lemma updated_keeps_band (d d' : Device.t) :
  updated d d' -> device_ok d -> device_ok d'.
Proof.
  intros [_ [[Hs Hh]|Hb]] Hd; [|exact Hb].
  unfold device_ok. rewrite Hs, Hh. exact Hd.
Qed.

Lemma Forall2_Forall_step {A} (R : A -> A -> Prop) (P : A -> Prop) (l l' : list A) :
  (forall x y, R x y -> P x -> P y) -> Forall2 R l l' -> Forall P l -> Forall P l'.
Proof.
  intros HR. induction 1 as [|x y l l' Hxy _ IH]; intros Hl; [constructor|].
  inversion Hl; subst. constructor; eauto.
Qed.

Section Snapshot.
Variable np_sin_2pi : Q -> Q.

Lemma reachable_devices_in_band (self : App) :
  reachable np_sin_2pi self -> Forall device_ok (sample_devices self).
Proof.
  revert self.
  apply (reachable_devices_invariant np_sin_2pi (Forall device_ok)).
  - intros w self E. exact (init_devices_ok w self E).
  - intros l l'. apply Forall2_Forall_step. exact updated_keeps_band.
Qed.

Lemma reachable_devices_count (self : App) :
  reachable np_sin_2pi self -> length (sample_devices self) = 20%nat.
Proof.
  revert self.
  apply (reachable_devices_invariant np_sin_2pi (fun l => length l = 20%nat)).
  - intros w self E.
    pose proof (init_devices (fun l => map Device.device_id l = device_ids) w self
                  generate_sample_devices_ids E) as H.
    rewrite <- (length_map Device.device_id), H. reflexivity.
  - intros l l' Hu Hl. rewrite <- Hl. symmetry. eapply Forall2_length, Hu.
Qed.

Lemma fetch_dashboard_body_consistent (self self' : App) (d : Dashboard.snapshot) :
  Forall device_ok (sample_devices self) ->
  Forall device_well_formed (sample_devices self) ->
  length (sample_devices self) = 20%nat ->
  fetch_dashboard_body np_sin_2pi self = (Ok (Dashboard.Snapshot d), self') ->
  snapshot_consistent d.
Proof.
  intros Hok Hwf Hlen E.
  destruct (update_device_values_run self) as (l' & s1 & Eu & Hu & _).
  assert (Hok' : Forall device_ok l').
  { eapply Forall2_Forall_step; [exact updated_keeps_band|exact Hu|exact Hok]. }
  assert (Hwf' : Forall device_well_formed l').
  { eapply Forall2_Forall_step; [exact updated_keeps_shape|exact Hu|exact Hwf]. }
  assert (Hlen' : length l' = 20%nat).
  { rewrite <- Hlen. symmetry. eapply Forall2_length, Hu. }
  clear Hok Hwf Hlen Hu.
  unfold fetch_dashboard_body in E. rewrite (bind_ok _ _ _ _ _ Eu) in E.
  unfold bind at 1 in E. unfold gets at 1 in E. cbv beta iota zeta in E.
  change (sample_devices (set_sample_devices l' s1)) with l' in E.
  refine ((_ : returns (fun p => forall d0, p = Dashboard.Snapshot d0 ->
                                            snapshot_consistent d0) _)
            _ _ _ E d eq_refl).
  apply returns_bind_any; intros now.
  apply returns_bind_any; intros noise.
  eapply returns_bind; [apply performance_trends_lengths|].
  intros trends (Hl1 & Hl2 & Hl3).
  apply returns_bind_any; intros ts.
  eapply returns_bind; [apply returns_uniform; lra|]. intros up [Hup1 Hup2].
  eapply returns_bind; [apply returns_uniform; lra|]. intros rt [Hrt1 Hrt2].
  apply returns_ret. intros d0 Hd0. inversion Hd0; subst d0; clear Hd0.
  unfold snapshot_consistent.
  cbn [Dashboard.total_devices Dashboard.active_devices Dashboard.warning_devices
       Dashboard.critical_devices Dashboard.status_distribution Dashboard.system_health
       Dashboard.efficiency Dashboard.uptime_percent Dashboard.response_time_ms
       Dashboard.performance_data].
  split; [exact Hlen'|].
  split; [apply count_status_partition, Hok'|].
  split; [reflexivity|].
  assert (Hh : (10 <= np_mean (map Device.health_score l') * 100 /\
                np_mean (map Device.health_score l') * 100 <= 100)%Q).
  { destruct (np_mean_bounds 0.1 1.0 (map Device.health_score l')) as [H1 H2].
    - destruct l'; [discriminate Hlen'|discriminate].
    - apply List.Forall_forall. intros x Hx. apply in_map_iff in Hx.
      destruct Hx as (dv & <- & Hdv). rewrite List.Forall_forall in Hok'.
      specialize (Hok' dv Hdv). unfold device_ok, in_band in Hok'.
      destruct Hok' as [(_&?&?)|[(_&?&?)|(_&?&?)]]; split; lra.
    - split; lra. }
  assert (He : (70 <= np_mean (map Device.efficiency_score l') * 100 /\
                np_mean (map Device.efficiency_score l') * 100 <= 100)%Q).
  { destruct (np_mean_bounds 0.7 1.0 (map Device.efficiency_score l')) as [H1 H2].
    - destruct l'; [discriminate Hlen'|discriminate].
    - apply List.Forall_forall. intros x Hx. apply in_map_iff in Hx.
      destruct Hx as (dv & <- & Hdv). rewrite List.Forall_forall in Hwf'.
      specialize (Hwf' dv Hdv). destruct Hwf' as (_&_&_&_&_&?&?). split; assumption.
    - split; lra. }
  destruct l' as [|d1 l']; [discriminate Hlen'|].
  cbn [map] in *.
  destruct Hh as [Hh1 Hh2]. destruct He as [He1 He2].
  destruct (py_round_bounds 10 100 _ 1 Hh1 Hh2) as [? ?].
  destruct (py_round_bounds 70 100 _ 1 He1 He2) as [? ?].
  destruct (py_round_hundredths_bounds 9850 9990 98.5 99.9 up) as [? ?];
    [reflexivity|reflexivity|assumption|assumption|].
  destruct (py_round_bounds 50 200 rt 1 Hrt1 Hrt2) as [? ?].
  repeat split; assumption.
Qed.

(** X11.  In every reachable state a cached dashboard snapshot is
    consistent: it counts twenty devices, its normal, warning and critical
    counts add up to that total and are repeated in the status
    distribution, system health lies in [10, 100], efficiency in
    [70, 100], uptime in [98.5, 99.9], response time in [50, 200], and
    the trend has twenty-four labels, health scores and efficiency
    scores. *)
Theorem cached_snapshot_consistent (self : App) (d : Dashboard.snapshot) :
  reachable np_sin_2pi self ->
  data_cache self !! "dashboard" = Some (Dashboard.Snapshot d) ->
  snapshot_consistent d.
Proof.
  intros Hr. revert d.
  induction Hr as [w self E|self Hr IH|self Hr IH|self limit Hr IH|self Hr IH|self Hr IH];
    intros d Hd.
  - destruct (init_cache w self E) as (Ec & _ & _).
    rewrite Ec, lookup_empty in Hd. discriminate.
  - revert Hd. rewrite get_dashboard_data_policy.
    destruct (fresh_inclusive self).
    + assert (Hs : data_cache (snd (reuse self)) = data_cache self).
      { unfold reuse. destruct (data_cache self !! "dashboard"); reflexivity. }
      rewrite Hs. apply IH.
    + unfold recompute, _fetch_dashboard_data, try_except.
      destruct (fetch_dashboard_body np_sin_2pi (tick_clock self)) as [[p|e] s1] eqn:E.
      * simpl. rewrite lookup_insert_eq. intros Hd. inversion Hd; subst p.
        eapply (fetch_dashboard_body_consistent (tick_clock self)); [| | |exact E].
        -- apply (reachable_devices_in_band self Hr).
        -- apply (reachable_devices_well_formed np_sin_2pi self Hr).
        -- apply (reachable_devices_count self Hr).
      * simpl. rewrite lookup_insert_eq. discriminate.
  - apply IH. rewrite <- Hd. symmetry.
    f_equal. apply (get_devices_data_keeps_cache _ _ _ self (cache_is_self self)).
  - apply IH. rewrite <- Hd. symmetry.
    f_equal. apply (get_alerts_data_keeps_cache _ _ _ limit self (cache_is_self self)).
  - apply IH. rewrite <- Hd. symmetry.
    f_equal. apply (get_analytics_data_keeps_cache np_sin_2pi _ _ _ self (cache_is_self self)).
  - apply IH. rewrite <- Hd. symmetry.
    f_equal. apply (get_system_status_keeps_cache _ _ _ self (cache_is_self self)).
Qed.

End Snapshot.

Lemma cached_snapshot_consistent_witness :
  reachable sin_zero ttl_app /\
  exists d,
    data_cache ttl_app !! "dashboard" = Some (Dashboard.Snapshot d) /\
    snapshot_consistent d.
Proof.
  assert (H : reachable sin_zero ttl_app).
  { unfold ttl_app. apply reach_dashboard.
    apply reach_init with (w := ttl_world). apply init_returns.
    vm_compute. reflexivity. }
  split; [exact H|].
  destruct (data_cache ttl_app !! "dashboard") as [[d|e ts]|] eqn:Hc.
  - exists d. split; [reflexivity|].
    exact (cached_snapshot_consistent sin_zero ttl_app d H Hc).
  - exfalso. revert Hc. vm_compute. discriminate.
  - exfalso. revert Hc. vm_compute. discriminate.
Defined.

(** ** When the clock is too close to [datetime.min] *)

Lemma bind_raise {A B} (m : M A) (k : A -> M B) (s s' : App) (e : exn) :
  m s = (Raise e, s') -> bind m k s = (Raise e, s').
Proof. intros E. unfold bind. rewrite E. reflexivity. Qed.

Lemma datetime_sub_overflow (now td : Z) :
  now < td ->
  datetime_sub now td = Raise (OverflowError "date value out of range").
Proof.
  intros H. unfold datetime_sub, datetime.in_range.
  assert (H1 : (datetime.min <=? now - td) = false).
  { apply Z.leb_gt. unfold datetime.min. lia. }
  rewrite H1. reflexivity.
Qed.

Lemma never_raises_datetime_now : never_raises datetime_now.
Proof. intros s. rewrite datetime_now_run. eauto. Qed.

Lemma performance_trends_run (self : App) :
  datetime.hours 23 <= peek_now self ->
  exists trends self', _generate_performance_trends self = (Ok trends, self').
Proof.
  intros Hnow.
  assert (Hn : datetime.hours 23 <= peek_now self <= datetime.max).
  { split; [exact Hnow|apply peek_now_range]. }
  unfold _generate_performance_trends. run_with datetime_now_run.
  destruct (for_each_run_Forall2 (fun i => 0 <= i <= 23) (fun _ _ => True)
              (range 24) (trend_point (peek_now self)) (range_bounds 24))
    with (s := tick_clock self) as (points & s1 & E & _).
  { intros i s Hi.
    destruct (trend_point_run (peek_now self) i s Hn Hi) as (p & s' & Ep & _). eauto. }
  rewrite (bind_ok _ _ _ _ _ E). unfold ret. eauto.
Qed.

Lemma performance_trends_overflow (self : App) :
  peek_now self < datetime.hours 23 ->
  _generate_performance_trends self =
    (Raise (OverflowError "date value out of range"), tick_clock self).
Proof.
  intros Hnow.
  unfold _generate_performance_trends. run_with datetime_now_run.
  apply bind_raise.
  change (range 24) with (0 :: map Z.of_nat (seq 1 23)).
  cbn [for_each]. apply bind_raise. unfold trend_point. apply bind_raise.
  unfold lift_result. rewrite datetime_sub_overflow; [reflexivity|].
  change (23 - 0) with 23. exact Hnow.
Qed.

Section EarlyClock.
Variable np_sin_2pi : Q -> Q.

(** X12.  The aggregate computation of the dashboard fails exactly when
    the clock read by the trend generator, the reading that follows one
    reading per device and one for the hour, is less than 23 hours after
    [datetime.min]: then [_fetch_dashboard_data] returns the error shape
    with the message of the overflow, otherwise it returns a snapshot. *)
Theorem aggregate_fails_on_early_clock (self : App) :
  if datetime.hours 23 <=? clock_reading self (S (length (sample_devices self)))
  then exists d, fst (_fetch_dashboard_data np_sin_2pi self) = Ok (Dashboard.Snapshot d)
  else exists ts, fst (_fetch_dashboard_data np_sin_2pi self)
                  = Ok (Dashboard.Error "date value out of range" ts).
Proof.
  destruct (update_loop_run (sample_devices self) self) as (l' & s1 & E & _ & _ & Hclk & _).
  assert (Eu : _update_device_values self = (Ok tt, set_sample_devices l' s1)).
  { unfold _update_device_values.
    unfold bind at 1. unfold gets at 1. cbv beta iota.
    rewrite (bind_ok _ _ _ _ _ E). reflexivity. }
  pose (s3 := tick_np (tick_clock (set_sample_devices l' s1))).
  assert (Hpeek : peek_now s3 = clock_reading self (S (length (sample_devices self)))).
  { assert (Hw : wall_clock (world s3) 0%nat
                 = wall_clock (world self) (S (length (sample_devices self)))).
    { change (wall_clock (world s3) 0%nat) with (wall_clock (world s1) 1%nat).
      rewrite Hclk. f_equal. lia. }
    unfold peek_now, clock_reading. rewrite Hw. reflexivity. }
  rewrite <- Hpeek. unfold s3 in *. clear s3 Hpeek.
  destruct (Z.leb_spec (datetime.hours 23)
              (peek_now (tick_np (tick_clock (set_sample_devices l' s1)))))
    as [Hsane|Hearly];
    unfold _fetch_dashboard_data, try_except, fetch_dashboard_body;
    rewrite (bind_ok _ _ _ _ _ Eu);
    unfold bind at 1; unfold gets at 1; cbv beta iota zeta;
    run_with datetime_now_run; run_with uniform_run.
  - destruct (performance_trends_run _ Hsane) as (t & s4 & Et).
    rewrite (bind_ok _ _ _ _ _ Et).
    cbv beta. run_with datetime_now_run. run_with uniform_run. run_with uniform_run.
    unfold ret. cbn [fst]. eauto.
  - rewrite (bind_raise _ _ _ _ _ (performance_trends_overflow _ Hearly)).
    cbv beta iota. run_with datetime_now_run. unfold ret. cbn [fst str_of_exn]. eauto.
Qed.

(** X13.  When the clock reads less than 23 hours after [datetime.min]
    the analytics labels cannot be computed and [get_analytics_data]
    returns the empty map, having read the clock and nothing else. *)
Theorem analytics_empty_on_early_clock (self : App) :
  peek_now self < datetime.hours 23 ->
  get_analytics_data np_sin_2pi self = (Ok ∅, tick_clock self).
Proof.
  intros Hearly. unfold get_analytics_data, try_except.
  run_with datetime_now_run.
  assert (E : for_each range_23_down
                (fun i => t <- lift_result (datetime_sub (peek_now self) (datetime.hours i)) ;;
                          ret (datetime.strftime_HM t)) (tick_clock self)
              = (Raise (OverflowError "date value out of range"), tick_clock self)).
  { change range_23_down with (23 :: rev (map Z.of_nat (seq 0 23))).
    cbn [for_each]. apply bind_raise. apply bind_raise.
    unfold lift_result. rewrite datetime_sub_overflow; [reflexivity|exact Hearly]. }
  rewrite (bind_raise _ _ _ _ _ E). reflexivity.
Qed.

End EarlyClock.

(** X14.  [get_system_status] never raises and changes no attribute.
    When its second reading of the clock is at least six hours after
    [datetime.min] it returns a snapshot whose [active_connections] is the
    number of devices, whose figures lie in the intervals they are drawn
    from and whose [last_backup] is six hours before that reading;
    otherwise it returns the error shape with the overflow message. *)
Theorem system_status_snapshot (self : App) :
  exists self',
    same_store self self' /\
    if datetime.hours 6 <=? clock_reading self 1
    then exists d,
        get_system_status self = (Ok (Status.Snapshot d), self') /\
        Status.active_connections d = length (sample_devices self) /\
        Status.timestamp d = clock_reading self 0 /\
        Status.last_backup d = clock_reading self 1 - datetime.hours 6 /\
        status_in_range d
    else get_system_status self =
           (Ok (Status.Error "date value out of range"), self').
Proof.
  set (s5 := tick_np (tick_np (tick_np (tick_np (tick_clock self))))).
  destruct (Z.leb_spec (datetime.hours 6) (clock_reading self 1)) as [Hsane|Hearly];
    unfold get_system_status, try_except;
    run_with datetime_now_run;
    do 4 run_with uniform_run;
    unfold bind at 1; unfold gets at 1; cbv beta iota;
    run_with datetime_now_run;
    fold s5;
    change (peek_now s5) with (clock_reading self 1);
    change (peek_now self) with (clock_reading self 0).
  - assert (Hsub : datetime_sub (clock_reading self 1) (datetime.hours 6)
                   = Ok (clock_reading self 1 - datetime.hours 6)).
    { unfold datetime_sub, datetime.in_range.
      pose proof (peek_now_range s5) as Hr.
      change (peek_now s5) with (clock_reading self 1) in Hr.
      assert (H1 : (datetime.min <=? clock_reading self 1 - datetime.hours 6) = true).
      { apply Z.leb_le. generalize Hsane. unfold datetime.min. lia. }
      assert (H2 : (clock_reading self 1 - datetime.hours 6 <=? datetime.max) = true).
      { apply Z.leb_le. generalize Hr. unfold datetime.hours. lia. }
      rewrite H1, H2. reflexivity. }
    unfold bind at 1. unfold lift_result at 1. rewrite Hsub. cbv beta iota.
    run_with uniform_run. unfold ret.
    eexists. split; [|eexists; split; [reflexivity|]].
    + repeat split.
    + cbn [Status.active_connections Status.timestamp Status.last_backup].
      split; [reflexivity|]. split; [reflexivity|]. split; [reflexivity|].
      unfold status_in_range.
      cbn [Status.cpu_usage Status.memory_usage Status.disk_usage
           Status.network_latency Status.uptime_hours].
      pose proof (peek_random_bounds (tick_clock self)) as [? ?].
      pose proof (peek_random_bounds (tick_np (tick_clock self))) as [? ?].
      pose proof (peek_random_bounds (tick_np (tick_np (tick_clock self)))) as [? ?].
      pose proof (peek_random_bounds (tick_np (tick_np (tick_np (tick_clock self))))) as [? ?].
      pose proof (peek_random_bounds (tick_clock s5)) as [? ?].
      repeat match goal with
             | |- _ /\ _ => split
             end;
        first [ apply (py_round_bounds 20 80) | apply (py_round_bounds 40 75)
              | apply (py_round_bounds 45 85) | apply (py_round_bounds 10 50)
              | apply (py_round_bounds 100 500) ];
        apply uniform_bounds; first [lra | assumption | unfold Qle; simpl; lia].
  - unfold bind at 1. unfold lift_result at 1.
    rewrite (datetime_sub_overflow _ _ Hearly). cbv beta iota. unfold ret.
    eexists. split; [|reflexivity]. repeat split.
Qed.

Lemma analytics_empty_on_early_clock_witness :
  peek_now epoch_app < datetime.hours 23 /\
  get_analytics_data sin_zero epoch_app = (Ok ∅, tick_clock epoch_app).
Proof.
  assert (H : peek_now epoch_app < datetime.hours 23) by (vm_compute; reflexivity).
  split; [exact H|].
  exact (analytics_empty_on_early_clock sin_zero epoch_app H).
Defined.

(** ** The alerts in every reachable state *)

Lemma returns_choice_In {A} `{ArrayItem A} (a : list A) :
  returns (fun x => In x a) (np.random.choice a).
Proof.
  unfold np.random.choice.
  destruct (negb _); [apply returns_raise|].
  destruct a as [|x a]; [apply returns_raise|].
  apply returns_bind_any. intros idx. apply returns_ret.
  destruct (nth_in_or_default (Z.to_nat idx) (x :: a) x) as [Hn|Hn];
    [exact Hn|rewrite Hn; left; reflexivity].
Qed.

Lemma returns_randint (low high : Z) :
  returns (fun n => low <= n < high) (np.random.randint low high).
Proof.
  unfold np.random.randint.
  destruct (Z.leb_spec high low) as [Hle|Hlt]; [apply returns_raise|].
  apply returns_bind_any. intros k. apply returns_ret.
  pose proof (Z.mod_pos_bound k (high - low)). lia.
Qed.

Lemma device_id_known (n : Z) :
  1 <= n < 21 -> In ("DEVICE_" +:+ fmt_03d (Z.to_nat n)) device_ids.
Proof.
  intros Hn. unfold device_ids. apply in_map_iff. exists (n - 1). split.
  - do 3 f_equal. lia.
  - unfold range. apply in_map_iff. exists (Z.to_nat (n - 1)). split; [lia|].
    apply in_seq. lia.
Qed.

Lemma generate_alert_shape (i : Z) :
  returns (fun a => alert_from_template a /\ In (Alert.device_id a) device_ids)
          (generate_alert i).
Proof.
  unfold generate_alert.
  eapply returns_bind; [apply (returns_choice_In alert_templates)|].
  intros t Ht.
  eapply returns_bind; [apply (returns_randint 1 21)|].
  intros n Hn. cbv zeta.
  repeat (apply returns_bind_any; intro).
  apply returns_ret. split.
  - exists t. cbn. auto.
  - cbn. apply device_id_known, Hn.
Qed.

Lemma sort_newest_first_Forall (P : Alert.t -> Prop) (l : list Alert.t) :
  Forall P l -> Forall P (sort_newest_first l).
Proof.
  intros Hl. apply List.Forall_forall. intros x Hx.
  rewrite List.Forall_forall in Hl.
  induction l as [|a l IH]; simpl in Hx; [contradiction|].
  apply insert_newest_first_In in Hx. destruct Hx as [->|Hx].
  - apply Hl. left. reflexivity.
  - apply IH; [|exact Hx]. intros y Hy. apply Hl. right. exact Hy.
Qed.

Lemma generate_sample_alerts_from_templates :
  returns (Forall (fun a => alert_from_template a /\ In (Alert.device_id a) device_ids))
          generate_sample_alerts.
Proof.
  unfold generate_sample_alerts.
  eapply returns_bind.
  - apply returns_for_each with (P := fun _ => True).
    + intros i _. apply generate_alert_shape.
    + apply List.Forall_forall. auto.
  - intros l Hl. apply returns_ret. apply sort_newest_first_Forall, Hl.
Qed.

Lemma init_alerts_returned (P : list Alert.t -> Prop) w self :
  returns P generate_sample_alerts ->
  init w = (Ok tt, self) -> P (sample_alerts self).
Proof.
  intros HP. unfold init, initialize_sample_data, bind, modify. intros E.
  destruct (generate_sample_devices _) as [[ds|e] s1] eqn:E1; [|inversion E].
  destruct (generate_sample_alerts _) as [[al|e] s2] eqn:E2; inversion E; subst; clear E.
  simpl. eapply HP. exact E2.
Qed.

Section AlertProperties.
Variable np_sin_2pi : Q -> Q.

Lemma reachable_alerts_from_templates (self : App) :
  reachable np_sin_2pi self ->
  Forall (fun a => alert_from_template a /\ In (Alert.device_id a) device_ids)
         (sample_alerts self).
Proof.
  intros Hr. destruct (reachable_alerts np_sin_2pi self Hr) as (w & self0 & E & ->).
  exact (init_alerts_returned _ w self0 generate_sample_alerts_from_templates E).
Qed.

Lemma reachable_alerts_count (self : App) :
  reachable np_sin_2pi self -> length (sample_alerts self) = 15%nat.
Proof.
  intros Hr. destruct (reachable_alerts np_sin_2pi self Hr) as (w & self0 & E & ->).
  exact (proj2 (init_alerts w self0 E)).
Qed.

(** X15.  In every reachable state there are exactly fifteen alerts, and
    each of them carries the title, severity and category of one of the
    five templates of [generate_sample_alerts], with the template's
    message followed by the device identifier: no call of a data method
    ever adds, drops or rewrites an alert. *)
Theorem alerts_from_templates_always (self : App) :
  reachable np_sin_2pi self ->
  length (sample_alerts self) = 15%nat /\
  Forall alert_from_template (sample_alerts self).
Proof.
  intros Hr. split; [exact (reachable_alerts_count self Hr)|].
  eapply Forall_impl; [exact (reachable_alerts_from_templates self Hr)|].
  intros a Ha. apply Ha.
Qed.

(** X16.  In every reachable state every alert is about a device the
    application has: its [device_id] is the identifier of one of the
    devices of the device list. *)
Theorem alerts_reference_devices (self : App) :
  reachable np_sin_2pi self ->
  Forall (fun a => exists d, In d (sample_devices self) /\
                             Device.device_id d = Alert.device_id a)
         (sample_alerts self).
Proof.
  intros Hr.
  eapply Forall_impl; [exact (reachable_alerts_from_templates self Hr)|].
  intros a [_ Ha]. cbv beta in Ha.
  rewrite <- (reachable_device_ids np_sin_2pi self Hr) in Ha.
  apply in_map_iff in Ha. destruct Ha as (d & Hd & Hin). eauto.
Qed.

(** X17.  On a reachable application, when the draw of [get_alerts_data]
    is at least 0.1, the call returns a prefix of the alert list, with
    [min(limit, 15)] alerts for a limit that is not negative and
    [max(0, 15 + limit)] alerts for a negative one (Python's slice drops
    the last [-limit] alerts then); it consumes one random word and
    changes nothing else. *)
Theorem alerts_read_count (limit : Z) (self : App) :
  reachable np_sin_2pi self ->
  Qltb (peek_random self) 0.1 = false ->
  exists l rest,
    get_alerts_data limit self = (Ok l, tick_np self) /\
    sample_alerts self = (l ++ rest)%list /\
    Z.of_nat (length l) = slice_length 15 limit.
Proof.
  intros Hr Hdraw.
  pose proof (reachable_alerts_count self Hr) as Hlen.
  assert (E : get_alerts_data limit self =
              (Ok (py_slice_to (sample_alerts self) limit), tick_np self)).
  { unfold get_alerts_data, bind, np.random.random, ret.
    unfold peek_random in Hdraw. simpl. rewrite Hdraw. reflexivity. }
  unfold py_slice_to in E. unfold slice_length.
  destruct (Z.ltb_spec limit 0) as [Hneg|Hpos].
  - exists (take (Z.to_nat (Z.of_nat (length (sample_alerts self)) + limit))
                 (sample_alerts self)),
           (drop (Z.to_nat (Z.of_nat (length (sample_alerts self)) + limit))
                 (sample_alerts self)).
    split; [exact E|]. split; [symmetry; apply take_drop|].
    rewrite length_take, Hlen. lia.
  - exists (take (Z.to_nat limit) (sample_alerts self)),
           (drop (Z.to_nat limit) (sample_alerts self)).
    split; [exact E|]. split; [symmetry; apply take_drop|].
    rewrite length_take, Hlen. lia.
Qed.

End AlertProperties.

Lemma alerts_from_templates_always_witness :
  reachable sin_zero demo_app /\ Forall alert_from_template (sample_alerts demo_app).
Proof.
  assert (H : reachable sin_zero demo_app).
  { apply reach_init with (w := demo_world). apply init_returns.
    vm_compute. reflexivity. }
  split; [exact H|].
  exact (proj2 (alerts_from_templates_always sin_zero demo_app H)).
Defined.

Lemma alerts_reference_devices_witness :
  reachable sin_zero demo_app /\
  Forall (fun a => exists d, In d (sample_devices demo_app) /\
                             Device.device_id d = Alert.device_id a)
         (sample_alerts demo_app).
Proof.
  assert (H : reachable sin_zero demo_app).
  { apply reach_init with (w := demo_world). apply init_returns.
    vm_compute. reflexivity. }
  split; [exact H|].
  exact (alerts_reference_devices sin_zero demo_app H).
Defined.

Lemma alerts_read_count_witness :
  reachable sin_zero (snd (get_alerts_data 5 demo_app)) /\
  Qltb (peek_random (snd (get_alerts_data 5 demo_app))) 0.1 = false /\
  exists l rest,
    get_alerts_data (-5) (snd (get_alerts_data 5 demo_app)) =
      (Ok l, tick_np (snd (get_alerts_data 5 demo_app))) /\
    sample_alerts (snd (get_alerts_data 5 demo_app)) = (l ++ rest)%list /\
    Z.of_nat (length l) = 10.
Proof.
  assert (H : reachable sin_zero (snd (get_alerts_data 5 demo_app))).
  { apply reach_alerts. apply reach_init with (w := demo_world). apply init_returns.
    vm_compute. reflexivity. }
  assert (Hd : Qltb (peek_random (snd (get_alerts_data 5 demo_app))) 0.1 = false)
    by (vm_compute; reflexivity).
  split; [exact H|]. split; [exact Hd|].
  exact (alerts_read_count sin_zero (-5) (snd (get_alerts_data 5 demo_app)) H Hd).
Defined.

(** ** The values and labels of the analytics series *)

Section AnalyticsValues.
Variable np_sin_2pi : Q -> Q.

Lemma sensor_point_value (ty : string) (b a fr : Q) (i : Z) :
  returns (sensor_value_ok ty) (sensor_point np_sin_2pi ty b a fr i).
Proof.
  unfold sensor_point. cbv zeta.
  apply returns_bind_any. intros noise.
  apply returns_bind_any. intros dn.
  apply returns_ret. unfold sensor_value_ok.
  split; [eexists; reflexivity|].
  destruct (String.eqb_spec ty "vibration") as [Hv|Hv];
    [|destruct (String.eqb_spec ty "power") as [Hp|Hp];
      [|destruct (String.eqb_spec ty "humidity") as [Hh|Hh]]];
    cbn [orb]; split.
  - intros _. apply py_round_nonneg, py_max_lower.
  - intros ->. discriminate Hv.
  - intros _. apply py_round_nonneg, py_max_lower.
  - intros ->. discriminate Hp.
  - intros [?|?]; contradiction.
  - intros _. apply (py_round_bounds 0 100); apply clamp_bounds.
  - intros [?|?]; contradiction.
  - intros ?. contradiction.
Qed.

Lemma generate_sensor_pattern_values (ty : string) (b a fr : Q) (self : App) :
  exists values self',
    _generate_sensor_pattern np_sin_2pi ty b a fr self = (Ok values, self') /\
    Forall (sensor_value_ok ty) values.
Proof.
  destruct (generate_sensor_pattern_run np_sin_2pi ty b a fr self) as (vs & s1 & E & _).
  exists vs, s1. split; [exact E|].
  unfold _generate_sensor_pattern in E.
  eapply (returns_for_each (fun _ => True)); [| |exact E].
  - intros i _. apply sensor_point_value.
  - apply List.Forall_forall. auto.
Qed.

Lemma get_analytics_data_run (self : App) :
  datetime.hours 23 <= peek_now self ->
  exists temperature pressure vibration power humidity self',
    get_analytics_data np_sin_2pi self =
      (Ok (list_to_map
             [ ("temperature",
                Series.mk (hour_labels (peek_now self)) temperature "°C" (18, 28)%Q);
               ("pressure",
                Series.mk (hour_labels (peek_now self)) pressure "hPa" (980, 1040)%Q);
               ("vibration",
                Series.mk (hour_labels (peek_now self)) vibration "mm/s" (0, 0.5)%Q);
               ("power",
                Series.mk (hour_labels (peek_now self)) power "W" (800, 1800)%Q);
               ("humidity",
                Series.mk (hour_labels (peek_now self)) humidity "%RH" (40, 70)%Q) ]),
       self') /\
    Forall (sensor_value_ok "temperature") temperature /\
    Forall (sensor_value_ok "pressure") pressure /\
    Forall (sensor_value_ok "vibration") vibration /\
    Forall (sensor_value_ok "power") power /\
    Forall (sensor_value_ok "humidity") humidity.
Proof.
  intros Hnow.
  assert (Hn : datetime.hours 23 <= peek_now self <= datetime.max).
  { split; [exact Hnow|apply peek_now_range]. }
  unfold get_analytics_data, try_except.
  run_with datetime_now_run.
  unfold bind at 1. rewrite (hour_labels_run _ _ _ Hn range_23_down_bounds).
  cbv beta iota. fold (hour_labels (peek_now self)).
  destruct (generate_sensor_pattern_values "temperature" 22 3 0.1 (tick_clock self))
    as (t & s1 & E1 & L1).
  destruct (generate_sensor_pattern_values "pressure" 1013 20 0.05 s1)
    as (p & s2 & E2 & L2).
  destruct (generate_sensor_pattern_values "vibration" 0.25 0.1 0.2 s2)
    as (v & s3 & E3 & L3).
  destruct (generate_sensor_pattern_values "power" 1200 300 0.08 s3)
    as (pw & s4 & E4 & L4).
  destruct (generate_sensor_pattern_values "humidity" 55 15 0.12 s4)
    as (h & s5 & E5 & L5).
  rewrite (bind_ok _ _ _ _ _ E1), (bind_ok _ _ _ _ _ E2), (bind_ok _ _ _ _ _ E3),
    (bind_ok _ _ _ _ _ E4), (bind_ok _ _ _ _ _ E5).
  unfold ret. exists t, p, v, pw, h, s5. split; [reflexivity|].
  repeat split; assumption.
Qed.

Lemma range_23_down_lookup (i : nat) :
  (i < 24)%nat -> range_23_down !! i = Some (23 - Z.of_nat i).
Proof.
  intros Hi.
  do 24 (destruct i as [|i]; [reflexivity|]). lia.
Qed.

(** X18.  With a clock at least 23 hours past [datetime.min], every value
    of every series of [get_analytics_data] has two decimals; the
    vibration and power values are never negative and the humidity values
    lie in [0, 100], whatever noise was drawn. *)
Theorem analytics_values_in_range (self : App) :
  datetime.hours 23 <= peek_now self ->
  exists analytics self',
    get_analytics_data np_sin_2pi self = (Ok analytics, self') /\
    forall kind series,
      analytics !! kind = Some series ->
      Forall (sensor_value_ok kind) (Series.values series).
Proof.
  intros Hnow.
  destruct (get_analytics_data_run self Hnow)
    as (t & p & v & pw & h & s' & E & Ht & Hp & Hv & Hpw & Hh).
  do 2 eexists. split; [exact E|].
  intros kind series Hk. apply elem_of_list_to_map_2 in Hk.
  repeat (apply elem_of_cons in Hk; destruct Hk as [Hk|Hk];
          [inversion Hk; subst; simpl; assumption|]).
  inversion Hk.
Qed.

(** X19.  With such a clock, all five series carry the same 24 labels:
    the [i]-th label is the time of day, as [HH:MM], [23 - i] hours
    before the clock reading of the call, so the labels run from 23 hours
    ago to now. *)
Theorem analytics_labels_hourly (self : App) :
  datetime.hours 23 <= peek_now self ->
  exists analytics self',
    get_analytics_data np_sin_2pi self = (Ok analytics, self') /\
    forall kind series,
      analytics !! kind = Some series ->
      forall i : nat,
        (i < 24)%nat ->
        Series.labels series !! i =
          Some (datetime.strftime_HM
                  (peek_now self - datetime.hours (23 - Z.of_nat i))).
Proof.
  intros Hnow.
  destruct (get_analytics_data_run self Hnow)
    as (t & p & v & pw & h & s' & E & _).
  do 2 eexists. split; [exact E|].
  intros kind series Hk i Hi.
  assert (Hl : Series.labels series = hour_labels (peek_now self)).
  { apply elem_of_list_to_map_2 in Hk.
    repeat (apply elem_of_cons in Hk; destruct Hk as [Hk|Hk];
            [inversion Hk; subst; reflexivity|]).
    inversion Hk. }
  rewrite Hl. unfold hour_labels.
  rewrite list_lookup_fmap, (range_23_down_lookup i Hi). reflexivity.
Qed.

End AnalyticsValues.

Lemma analytics_values_in_range_witness :
  datetime.hours 23 <= peek_now demo_app /\
  exists analytics self' series,
    get_analytics_data sin_zero demo_app = (Ok analytics, self') /\
    analytics !! "humidity" = Some series /\
    Forall (sensor_value_ok "humidity") (Series.values series).
Proof.
  assert (H : datetime.hours 23 <= peek_now demo_app) by (vm_compute; discriminate).
  split; [exact H|].
  destruct (analytics_values_in_range sin_zero demo_app H) as (a & s & E & Hv).
  destruct (get_analytics_data_run sin_zero demo_app H)
    as (t & p & v & pw & h & s' & E' & _).
  rewrite E in E'. injection E' as Ha Hs.
  revert Ha. generalize (hour_labels (peek_now demo_app)). intros lbl Ha.
  assert (Hk : a !! "humidity" = Some (Series.mk lbl h "%RH" (40, 70)%Q)).
  { rewrite Ha. reflexivity. }
  exists a, s, (Series.mk lbl h "%RH" (40, 70)%Q).
  split; [exact E|]. split; [exact Hk|]. exact (Hv _ _ Hk).
Defined.

Lemma analytics_labels_hourly_witness :
  datetime.hours 23 <= peek_now demo_app /\
  exists analytics self' series,
    get_analytics_data sin_zero demo_app = (Ok analytics, self') /\
    analytics !! "power" = Some series /\
    Series.labels series !! 23%nat = Some (datetime.strftime_HM (peek_now demo_app)).
Proof.
  assert (H : datetime.hours 23 <= peek_now demo_app) by (vm_compute; discriminate).
  split; [exact H|].
  destruct (analytics_labels_hourly sin_zero demo_app H) as (a & s & E & Hl).
  destruct (get_analytics_data_run sin_zero demo_app H)
    as (t & p & v & pw & h & s' & E' & _).
  rewrite E in E'. injection E' as Ha Hs.
  revert Ha. generalize (hour_labels (peek_now demo_app)). intros lbl Ha.
  assert (Hk : a !! "power" = Some (Series.mk lbl pw "W" (800, 1800)%Q)).
  { rewrite Ha. reflexivity. }
  exists a, s, (Series.mk lbl pw "W" (800, 1800)%Q).
  split; [exact E|]. split; [exact Hk|].
  exact (Hl _ _ Hk 23%nat (le_n 24)).
Defined.

(** ** The jitter on a device read and on a dashboard recomputation *)


Section JitterRounds.
Variable np_sin_2pi : Q -> Q.



End JitterRounds.

